(** * django-cotton: the component tag (templatetags/_component.py)

    A shallow embedding of [cotton_component] and [CottonComponentNode]
    and the properties of the component-rendering node.

    The host framework (Django's [template.Variable], [Template],
    [get_template], the settings object) and Python's [ast.literal_eval]
    are collaborators of the module, not part of it.  They are gathered in
    the [Host] record; the general results hold for every host, and a small
    reference host [Django] is used to run the code on concrete inputs. *)

From Stdlib Require Import String Ascii List Bool ZArith DecimalString.
Import ListNotations.
Local Open Scope list_scope.
Local Open Scope string_scope.

(** ** Python strings *)

Module PyStr.

(** [s[0]] when [s] is not empty. *)
Definition first_char (s : string) : option ascii :=
  match s with
  | EmptyString => None
  | String c _ => Some c
  end.

(** [s[-1]] when [s] is not empty. *)
Fixpoint last_char (s : string) : option ascii :=
  match s with
  | EmptyString => None
  | String c EmptyString => Some c
  | String _ s' => last_char s'
  end.

(** [s[:-1]] *)
Fixpoint drop_last (s : string) : string :=
  match s with
  | EmptyString => EmptyString
  | String _ EmptyString => EmptyString
  | String c s' => String c (drop_last s')
  end.

(** [s[1:]] *)
Definition tail (s : string) : string :=
  match s with
  | EmptyString => EmptyString
  | String _ s' => s'
  end.

(** [s[1:-1]] *)
Definition strip_ends (s : string) : string := drop_last (tail s).

(** [s.startswith(c)] for a one-character [c]. *)
Definition startswith (c : ascii) (s : string) : bool :=
  match s with
  | EmptyString => false
  | String a _ => Ascii.eqb a c
  end.

(** [c in s] for a one-character [c]. *)
Fixpoint contains (c : ascii) (s : string) : bool :=
  match s with
  | EmptyString => false
  | String a s' => Ascii.eqb a c || contains c s'
  end.

(** [s.split(sep)] for a one-character [sep]: the pieces between every
    occurrence of [sep]; never the empty list. *)
Fixpoint split (sep : ascii) (s : string) : list string :=
  match s with
  | EmptyString => [EmptyString]
  | String c s' =>
      if Ascii.eqb c sep then EmptyString :: split sep s'
      else match split sep s' with
           | p :: ps => String c p :: ps
           | [] => [String c EmptyString]
           end
  end.

(** [s.replace(old, new)] for one-character [old] and [new]. *)
Fixpoint replace (old new : ascii) (s : string) : string :=
  match s with
  | EmptyString => EmptyString
  | String c s' =>
      String (if Ascii.eqb c old then new else c) (replace old new s')
  end.

(** [s.lstrip(c)] for a one-character [c]. *)
Fixpoint lstrip (c : ascii) (s : string) : string :=
  match s with
  | EmptyString => EmptyString
  | String a s' => if Ascii.eqb a c then lstrip c s' else s
  end.

(** [sep.join(l)] *)
Fixpoint join (sep : string) (l : list string) : string :=
  match l with
  | [] => EmptyString
  | [x] => x
  | x :: rest => x ++ sep ++ join sep rest
  end.

End PyStr.

(** ** Values, exceptions, outcomes *)

(** The exception classes that occur in the module or that its
    collaborators raise.  [TemplateSyntaxError] and [VariableDoesNotExist]
    are Django's own and derive from [Exception] only. *)
Inductive Exn : Type :=
| VariableDoesNotExist
| TemplateSyntaxError
| ValueError
| SyntaxError
| IndexError
| KeyError
| TypeError
| AttributeError
| CottonIncompleteDynamicComponentException (msg : string)
| OtherError (name : string).

(** Python values as far as the module handles them.  A dict keeps the
    order in which its keys were inserted.  A string is its text: the
    mark that [mark_safe] puts on a string for the HTML output does not
    change the text and is left out. *)
#[warnings="-register-all"]
Inductive PyVal : Type :=
| VNone
| VBool (b : bool)
| VInt (z : Z)
| VStr (s : string)
| VList (l : list PyVal)
| VDict (d : list (string * PyVal))
| VExc (e : Exn).

(** A call either returns or raises. *)
Inductive Outcome (A : Type) : Type :=
| Ok (a : A)
| Raise (e : Exn).
Arguments Ok {A} a.
Arguments Raise {A} e.

Definition bind {A B : Type} (m : Outcome A) (k : A -> Outcome B) : Outcome B :=
  match m with
  | Ok a => k a
  | Raise e => Raise e
  end.

Notation "x <- m ;; k" := (bind m (fun x => k))
  (at level 61, m at next level, right associativity).

(** [try: m  except classes: handler]; an exception outside [classes]
    passes through.  An exception counts as the nearest of its classes in
    [Exn]. *)
Definition exn_eqb (a b : Exn) : bool :=
  match a, b with
  | VariableDoesNotExist, VariableDoesNotExist => true
  | TemplateSyntaxError, TemplateSyntaxError => true
  | ValueError, ValueError => true
  | SyntaxError, SyntaxError => true
  | IndexError, IndexError => true
  | KeyError, KeyError => true
  | TypeError, TypeError => true
  | AttributeError, AttributeError => true
  | CottonIncompleteDynamicComponentException _,
    CottonIncompleteDynamicComponentException _ => true
  | OtherError n, OtherError m => String.eqb n m
  | _, _ => false
  end.

Definition caught (classes : list Exn) (e : Exn) : bool :=
  existsb (exn_eqb e) classes.

Definition try_except {A : Type} (m : Outcome A) (classes : list Exn)
    (handler : Outcome A) : Outcome A :=
  match m with
  | Ok a => Ok a
  | Raise e => if caught classes e then handler else Raise e
  end.

Definition returns {A : Type} (m : Outcome A) : Prop := exists a, m = Ok a.

(** ** Dicts *)

Section Dicts.
Context {V : Type}.

(** [d.get(k)] *)
Fixpoint dict_get (d : list (string * V)) (k : string) : option V :=
  match d with
  | [] => None
  | (k', v) :: rest => if String.eqb k' k then Some v else dict_get rest k
  end.

(** [d[k] = v]: an existing key keeps its place, a new one goes last. *)
Fixpoint dict_set (d : list (string * V)) (k : string) (v : V)
  : list (string * V) :=
  match d with
  | [] => [(k, v)]
  | (k', v') :: rest =>
      if String.eqb k' k then (k', v) :: rest
      else (k', v') :: dict_set rest k v
  end.

(** [d.update(other)] *)
Definition dict_update (d other : list (string * V)) : list (string * V) :=
  fold_left (fun acc kv => dict_set acc (fst kv) (snd kv)) other d.

Definition dict_keys (d : list (string * V)) : list string := map fst d.
End Dicts.

Definition Dict := list (string * PyVal).

(** The side-channel slot store: component key -> slot name -> content. *)
Definition SlotStore := list (string * Dict).

(** A render context.  [ctx_vars] is its flattened view; the name
    [cotton_named_slots] is special: it is bound to an object that the
    component nodes share and mutate, so it has a field of its own
    ([None] when the context does not have the name). *)
Record Context : Type := {
  ctx_vars : Dict;
  ctx_named_slots : option SlotStore
}.

(** ** The host *)

Record Host : Type := {
  (** [template.Variable(value).resolve(context)] *)
  variable_resolve : string -> Context -> Outcome PyVal;
  (** [Template(value).render(Context(context))] *)
  template_render : string -> Context -> Outcome string;
  (** [ast.literal_eval(value)] *)
  literal_eval : string -> Outcome PyVal;
  (** [django_cotton.utils.ensure_quoted(value)] *)
  ensure_quoted : PyVal -> string;
  (** [settings.COTTON_DIR], when the settings have the attribute *)
  COTTON_DIR : option string;
  (** [get_template(path).render(local_ctx)] *)
  get_template_render : PyVal -> Context -> Outcome string
}.

(** ** The slot store and the local context *)

(** [context.get("cotton_named_slots", {}).get(key, {})] *)
Definition named_slots_for (store : option SlotStore) (key : string) : Dict :=
  match store with
  | Some all_named_slots =>
      match dict_get all_named_slots key with
      | Some slots => slots
      | None => []
      end
  | None => []
  end.

(** [all_named_slots_ctx[key] = {}]; when the context has no
    [cotton_named_slots] the assignment goes to the default dict of
    [context.get] and is lost. *)
Definition reset_slots (store : option SlotStore) (key : string)
  : option SlotStore :=
  match store with
  | Some all_named_slots => Some (dict_set all_named_slots key [])
  | None => None
  end.

(** [local_ctx[k] = v] on the flattened copy: assigning the name
    [cotton_named_slots] replaces the reference to the shared store. *)
Definition local_set (local_ctx : Context) (k : string) (v : PyVal) : Context :=
  {| ctx_vars := dict_set (ctx_vars local_ctx) k v;
     ctx_named_slots :=
       if String.eqb k "cotton_named_slots" then None
       else ctx_named_slots local_ctx |}.

(** [local_ctx.update(d)] *)
Definition local_update (local_ctx : Context) (d : Dict) : Context :=
  fold_left (fun acc kv => local_set acc (fst kv) (snd kv)) d local_ctx.

(** The flattened copy holds the store by reference: as long as it still
    has the reference, it sees the store as it is now. *)
Definition sees_store (local_ctx : Context) (store : option SlotStore)
  : Context :=
  match ctx_named_slots local_ctx, store with
  | Some _, Some s =>
      {| ctx_vars := ctx_vars local_ctx; ctx_named_slots := Some s |}
  | _, _ => local_ctx
  end.

(** What [for x in v] goes through. *)
Definition py_iter (v : PyVal) : Outcome (list PyVal) :=
  match v with
  | VList l => Ok l
  | VStr s => Ok (map (fun c => VStr (String c EmptyString)) (list_ascii_of_string s))
  | VDict d => Ok (map (fun kv => VStr (fst kv)) d)
  | _ => Raise TypeError
  end.

(** [d[k]] for a dict with string keys and any key [k]. *)
Definition dict_index (d : Dict) (k : PyVal) : Outcome PyVal :=
  match k with
  | VStr name =>
      match dict_get d name with
      | Some v => Ok v
      | None => Raise KeyError
      end
  | VList _ | VDict _ => Raise TypeError
  | _ => Raise KeyError
  end.

Record CottonComponentNode : Type := {
  (** [self.nodelist.render(context)]: the rendered body, and the context
      as the nested nodes leave it; they render on the context itself and
      can assign its variables and store slots. *)
  nodelist : Context -> Outcome string * Context;
  component_path : string;
  component_key : string;
  kwargs : list (string * string)
}.

(** ** CottonComponentNode *)

Section Node.
Variable h : Host.

Definition _parse_template_string (value : string) (context : Context)
  : Outcome string :=
  try_except (template_render h value context)
             [ValueError; SyntaxError]
             (Ok value).

Definition _process_dynamic_attribute (value : string) (context : Context)
  : Outcome PyVal :=
  match variable_resolve h value context with
  | Ok v => Ok v
  | Raise e =>
      if caught [VariableDoesNotExist] e then
        if String.eqb value EmptyString then Ok (VBool true)
        else
          value' <- _parse_template_string value context ;;
          try_except (literal_eval h value')
                     [ValueError; SyntaxError]
                     (Ok (VStr value'))
      else Raise e
  end.


(** The test of [_build_attrs] before it strips the quotes:
    the value is not empty, its first and last characters are equal,
    and they are a double or a single quote. *)
Definition quoted_both_sides (value : string) : bool :=
  match PyStr.first_char value, PyStr.last_char value with
  | Some a, Some b =>
      Ascii.eqb a b && (Ascii.eqb a "034" || Ascii.eqb a "'")
  | _, _ => false
  end.

Definition strip_quotes (value : string) : string :=
  if quoted_both_sides value then PyStr.strip_ends value else value.

(** The loop of [_build_attrs] over [self.kwargs.items()], with the
    [attrs] built so far. *)
Fixpoint _build_attrs_from (items : list (string * string))
    (context : Context) (attrs : Dict) : Outcome Dict :=
  match items with
  | [] => Ok attrs
  | (key, value) :: rest =>
      let value := strip_quotes value in
      if PyStr.startswith ":" key then
        v <- _process_dynamic_attribute value context ;;
        _build_attrs_from rest context (dict_set attrs (PyStr.tail key) v)
      else if String.eqb value EmptyString then
        _build_attrs_from rest context (dict_set attrs key (VBool true))
      else
        _build_attrs_from rest context (dict_set attrs key (VStr value))
  end.

Definition dquote : string := String "034" EmptyString.

Definition incomplete_dynamic_component : Exn :=
  CottonIncompleteDynamicComponentException
    ("Cotton error: " ++ dquote ++ "<c-component>" ++ dquote
     ++ " should be accompanied by an " ++ dquote ++ "is" ++ dquote
     ++ " attribute.").

(** [component_path.replace(".", "/").replace("-", "_")] *)
Definition component_tpl_path (component_path : string) : string :=
  PyStr.replace "-" "_" (PyStr.replace "." "/" component_path).

Definition base_dir : string :=
  match COTTON_DIR h with
  | Some d => d
  | None => "cotton"
  end.

(** The last two statements of [_generate_component_template_path];
    only a [str] has [replace]. *)
Definition format_template_path (component_path : PyVal) : Outcome PyVal :=
  match component_path with
  | VStr p => Ok (VStr (base_dir ++ "/" ++ component_tpl_path p ++ ".html"))
  | _ => Raise AttributeError
  end.

(** [" ".join(f"{key}={ensure_quoted(value)}" for key, value in attrs.items())] *)
Definition attrs_string (attrs : Dict) : string :=
  PyStr.join " "
    (map (fun kv => fst kv ++ "=" ++ ensure_quoted h (snd kv)) attrs).

(** [{key.replace("-", "_"): value for key, value in attrs.items()}] *)
Definition callable_attrs (attrs : Dict) : Dict :=
  fold_left
    (fun acc kv => dict_set acc (PyStr.replace "-" "_" (fst kv)) (snd kv))
    attrs [].


(** [_build_attrs(self, context)] *)
Definition _build_attrs (self : CottonComponentNode) (context : Context)
  : Outcome Dict :=
  _build_attrs_from (kwargs self) context [].

(** [_generate_component_template_path(self, attrs)]: a path, or the
    exception object that the method returns. *)
Definition _generate_component_template_path (self : CottonComponentNode)
    (attrs : Dict) : Outcome PyVal :=
  if String.eqb (component_path self) "component" then
    match dict_get attrs "is" with
    | Some component_path => format_template_path component_path
    | None => Ok (VExc incomplete_dynamic_component)
    end
  else format_template_path (VStr (component_path self)).

(** The loop of [render] over
    [local_named_slots_ctx["ctn_template_expression_attrs"]].
    [template.Variable] takes a string only.  The resolution is taken to
    read the local context and not to change it (an expression that names
    a method of [dict], such as [clear], would). *)
Fixpoint expression_attrs_from (names : list PyVal)
    (local_named_slots_ctx : Dict) (local_ctx : Context) (attrs : Dict)
  : Outcome Dict :=
  match names with
  | [] => Ok attrs
  | expression_attr :: rest =>
      raw <- dict_index local_named_slots_ctx expression_attr ;;
      evaluated <-
        match raw with
        | VStr value => _process_dynamic_attribute value local_ctx
        | _ => Raise TypeError
        end ;;
      match expression_attr with
      | VStr name =>
          expression_attrs_from rest local_named_slots_ctx local_ctx
            (dict_set attrs (PyStr.lstrip ":" name) evaluated)
      | _ => Raise AttributeError
      end
  end.

Definition expression_attrs (local_named_slots_ctx : Dict)
    (local_ctx : Context) (attrs : Dict) : Outcome Dict :=
  match dict_get local_named_slots_ctx "ctn_template_expression_attrs" with
  | Some names =>
      l <- py_iter names ;;
      expression_attrs_from l local_named_slots_ctx local_ctx attrs
  | None => Ok attrs
  end.

(** What [render] has built when it reaches the template path: the
    resolved attributes (the [attrs_dict] of the local context), the named
    slots it consumed, and the local context. *)
Record Locals : Type := {
  attrs_dict : Dict;
  named_slots : Dict;
  local_ctx : Context
}.

(** [render(self, context)] down to the reset of the slots: the outcome,
    and the context as the call leaves it.  The local context is the
    flattened copy taken before the body is rendered; of what the body
    does to the context it sees the slot store only, which it holds by
    reference. *)
Definition render_locals (self : CottonComponentNode) (context : Context)
  : Outcome Locals * Context :=
  match _build_attrs self context with
  | Raise e => (Raise e, context)
  | Ok attrs =>
      let local_ctx := context in
      let (body, context) := nodelist self context in
      let store := ctx_named_slots context in
      match body with
      | Raise e => (Raise e, context)
      | Ok slot =>
          let local_ctx := sees_store local_ctx store in
          let local_ctx := local_set local_ctx "slot" (VStr slot) in
          let local_named_slots_ctx :=
            named_slots_for store (component_key self) in
          let local_ctx := local_update local_ctx local_named_slots_ctx in
          match expression_attrs local_named_slots_ctx local_ctx attrs with
          | Raise e => (Raise e, context)
          | Ok attrs =>
              let local_ctx :=
                local_set local_ctx "attrs" (VStr (attrs_string attrs)) in
              let local_ctx := local_set local_ctx "attrs_dict" (VDict attrs) in
              let local_ctx := local_update local_ctx (callable_attrs attrs) in
              let store := reset_slots store (component_key self) in
              let context :=
                {| ctx_vars := ctx_vars context; ctx_named_slots := store |} in
              let local_ctx := sees_store local_ctx store in
              (Ok {| attrs_dict := attrs;
                     named_slots := local_named_slots_ctx;
                     local_ctx := local_ctx |},
               context)
          end
      end
  end.

(** [render(self, context)] *)
Definition render (self : CottonComponentNode) (context : Context)
  : Outcome string * Context :=
  match render_locals self context with
  | (Ok locals, context) =>
      (template_path <-
         _generate_component_template_path self
           (callable_attrs (attrs_dict locals)) ;;
       get_template_render h template_path (local_ctx locals),
       context)
  | (Raise e, context) => (Raise e, context)
  end.

End Node.

(** ** The tag function *)

(** [key, value = bit.split("=")] with its [except ValueError]: the
    unpacking needs exactly two pieces. *)
Definition parse_bit (bit : string) : string * string :=
  match PyStr.split "=" bit with
  | [key; value] => (key, value)
  | _ => (bit, EmptyString)
  end.

(** The loop of [cotton_component] over [bits[3:]]. *)
Definition parse_kwargs (bits : list string) : list (string * string) :=
  fold_left
    (fun kwargs bit => dict_set kwargs (fst (parse_bit bit)) (snd (parse_bit bit)))
    bits [].

(** [cotton_component(parser, token)], from the [bits] of
    [token.split_contents()] and the node list that [parser.parse] returns
    for the text up to [end_cotton_component].  A tag that the parser
    cannot close never gets its node: that failure of the parser is not
    an outcome here. *)
Definition cotton_component (bits : list string)
    (body : Context -> Outcome string * Context)
  : Outcome CottonComponentNode :=
  match bits with
  | _ :: path :: key :: rest =>
      Ok {| nodelist := body;
            component_path := path;
            component_key := key;
            kwargs := parse_kwargs rest |}
  | _ => Raise IndexError
  end.

(** ** A reference host

    Enough of Django's template engine and of [ast.literal_eval] to run
    the component on concrete inputs.  It follows the framework on this
    fragment: contexts that hold plain values; variables that are decimal
    integers, quoted strings without escapes, or dotted paths through
    dicts and lists; templates made of text, variable tags without
    filters and comment tags, in an engine that knows no block tag and
    has no template directory; literals that are integers, [True],
    [False], [None] or quoted strings without escapes.  Floats, filters,
    attribute access, method calls and translation markers are outside of
    it. *)

Module Django.

Definition is_digit (c : ascii) : bool :=
  (48 <=? nat_of_ascii c)%nat && (nat_of_ascii c <=? 57)%nat.

Fixpoint all_digits (s : string) : bool :=
  match s with
  | EmptyString => true
  | String c s' => is_digit c && all_digits s'
  end.

Fixpoint digits_value (s : string) (acc : Z) : Z :=
  match s with
  | EmptyString => acc
  | String c s' =>
      digits_value s' (10 * acc + Z.of_nat (nat_of_ascii c - 48))%Z
  end.

(** [int(s)] for an optional sign followed by decimal digits. *)
Definition parse_int (s : string) : option Z :=
  let unsigned (d : string) :=
    match d with
    | EmptyString => None
    | _ => if all_digits d then Some (digits_value d 0%Z) else None
    end in
  match s with
  | String "-" d => option_map Z.opp (unsigned d)
  | String "+" d => unsigned d
  | _ => unsigned s
  end.

Definition exn_name (e : Exn) : string :=
  match e with
  | VariableDoesNotExist => "VariableDoesNotExist"
  | TemplateSyntaxError => "TemplateSyntaxError"
  | ValueError => "ValueError"
  | SyntaxError => "SyntaxError"
  | IndexError => "IndexError"
  | KeyError => "KeyError"
  | TypeError => "TypeError"
  | AttributeError => "AttributeError"
  | CottonIncompleteDynamicComponentException _ =>
      "CottonIncompleteDynamicComponentException"
  | OtherError name => name
  end.

(** [repr(v)]; strings without quotes or escapes. *)
Fixpoint py_repr (v : PyVal) : string :=
  match v with
  | VNone => "None"
  | VBool true => "True"
  | VBool false => "False"
  | VInt z => NilZero.string_of_int (Z.to_int z)
  | VStr s => "'" ++ s ++ "'"
  | VList l => "[" ++ PyStr.join ", " (map py_repr l) ++ "]"
  | VDict d =>
      "{" ++ PyStr.join ", "
               (map (fun kv => "'" ++ fst kv ++ "': " ++ py_repr (snd kv)) d)
          ++ "}"
  | VExc (CottonIncompleteDynamicComponentException msg) =>
      "CottonIncompleteDynamicComponentException('" ++ msg ++ "')"
  | VExc e => exn_name e ++ "()"
  end.

(** [str(v)] *)
Definition py_str (v : PyVal) : string :=
  match v with
  | VStr s => s
  | VExc (CottonIncompleteDynamicComponentException msg) => msg
  | VExc _ => EmptyString
  | _ => py_repr v
  end.

(** [django.utils.html.escape] *)
Fixpoint escape (s : string) : string :=
  match s with
  | EmptyString => EmptyString
  | String c s' =>
      (if Ascii.eqb c "&" then "&amp;"
       else if Ascii.eqb c "<" then "&lt;"
       else if Ascii.eqb c ">" then "&gt;"
       else if Ascii.eqb c "034" then "&quot;"
       else if Ascii.eqb c "'" then "&#x27;"
       else String c EmptyString) ++ escape s'
  end.

(** The names every [Context] starts with. *)
Definition builtins (name : string) : option PyVal :=
  if String.eqb name "True" then Some (VBool true)
  else if String.eqb name "False" then Some (VBool false)
  else if String.eqb name "None" then Some VNone
  else None.

Definition store_value (s : SlotStore) : PyVal :=
  VDict (map (fun kd => (fst kd, VDict (snd kd))) s).

(** [context[name]] *)
Definition context_lookup (context : Context) (name : string)
  : option PyVal :=
  match dict_get (ctx_vars context) name with
  | Some v => Some v
  | None =>
      if String.eqb name "cotton_named_slots" then
        option_map store_value (ctx_named_slots context)
      else builtins name
  end.

(** One step of [Variable._resolve_lookup] below the context: a dict
    key, or a list index. *)
Definition lookup_in (current : PyVal) (bit : string) : option PyVal :=
  match current with
  | VDict d => dict_get d bit
  | VList l =>
      if all_digits bit then
        match bit with
        | EmptyString => None
        | _ => nth_error l (Z.to_nat (digits_value bit 0%Z))
        end
      else None
  | _ => None
  end.

Fixpoint resolve_lookups (current : PyVal) (bits : list string)
  : Outcome PyVal :=
  match bits with
  | [] => Ok current
  | bit :: rest =>
      match lookup_in current bit with
      | Some v => resolve_lookups v rest
      | None => Raise VariableDoesNotExist
      end
  end.

(** [._] occurs in [s]. *)
Fixpoint has_dot_underscore (s : string) : bool :=
  match s with
  | String "." (String "_" _) => true
  | String _ s' => has_dot_underscore s'
  | EmptyString => false
  end.

(** A variable that is a literal: a number, or a string in quotes. *)
Definition variable_literal (var : string) : option PyVal :=
  match parse_int var with
  | Some z => Some (VInt z)
  | None =>
      match PyStr.first_char var, PyStr.last_char var with
      | Some a, Some b =>
          if (Ascii.eqb a "034" || Ascii.eqb a "'") && Ascii.eqb b a
          then Some (VStr (PyStr.strip_ends var))
          else None
      | _, _ => None
      end
  end.

(** [Variable(var).resolve(context)].  The constructor looks at
    [var[0]] once the literal forms have failed, so the empty string
    ends in [IndexError]. *)
Definition variable_resolve (var : string) (context : Context)
  : Outcome PyVal :=
  match variable_literal var with
  | Some v => Ok v
  | None =>
      match var with
      | EmptyString => Raise IndexError
      | _ =>
          if has_dot_underscore var || PyStr.startswith "_" var
          then Raise TemplateSyntaxError
          else
            match PyStr.split "." var with
            | [] => Raise VariableDoesNotExist
            | name :: rest =>
                match context_lookup context name with
                | Some v => resolve_lookups v rest
                | None => Raise VariableDoesNotExist
                end
            end
      end
  end.


Definition is_space (c : ascii) : bool :=
  Ascii.eqb c " " || Ascii.eqb c "009".

Fixpoint lstrip_spaces (s : string) : string :=
  match s with
  | EmptyString => EmptyString
  | String c s' => if is_space c then lstrip_spaces s' else s
  end.

Fixpoint rstrip_spaces (s : string) : string :=
  match s with
  | EmptyString => EmptyString
  | String c s' =>
      match rstrip_spaces s' with
      | EmptyString => if is_space c then EmptyString else String c EmptyString
      | r => String c r
      end
  end.

(** [s.strip()] on one line of text. *)
Definition strip (s : string) : string := rstrip_spaces (lstrip_spaces s).

(** The text of a tag up to its closing pair [c1 }], which has to come
    before the end of the line. *)
Fixpoint find_close (c1 : ascii) (s : string) : option string :=
  match s with
  | EmptyString => None
  | String a s' =>
      if Ascii.eqb a "010" then None
      else if Ascii.eqb a c1 && PyStr.startswith "}" s' then Some EmptyString
      else option_map (String a) (find_close c1 s')
  end.

Inductive TagKind : Type := VarTag | BlockTag | CommentTag.

(** The tag that starts at the head of [s], with its content. *)
Definition tag_at (s : string) : option (TagKind * string) :=
  match s with
  | String "{" (String "{" rest) =>
      option_map (pair VarTag) (find_close "}" rest)
  | String "{" (String "%" rest) =>
      option_map (pair BlockTag) (find_close "%" rest)
  | String "{" (String "#" rest) =>
      option_map (pair CommentTag) (find_close "#" rest)
  | _ => None
  end.

Definition is_word_char (c : ascii) : bool :=
  let n := nat_of_ascii c in
  is_digit c
  || ((65 <=? n)%nat && (n <=? 90)%nat)
  || ((97 <=? n)%nat && (n <=? 122)%nat)
  || Ascii.eqb c "_" || Ascii.eqb c ".".

Fixpoint all_word_chars (s : string) : bool :=
  match s with
  | EmptyString => true
  | String c s' => is_word_char c && all_word_chars s'
  end.

(** A variable tag [{{ expression }}] without filters. *)
Definition render_variable_tag (content : string) (context : Context)
  : Outcome string :=
  let expression := strip content in
  match expression with
  | EmptyString => Raise TemplateSyntaxError
  | _ =>
      match variable_literal expression with
      | Some v => Ok (py_str v)
      | None =>
          if all_word_chars expression then
            match variable_resolve expression context with
            | Ok v => Ok (escape (py_str v))
            | Raise VariableDoesNotExist => Ok EmptyString
            | Raise e => Raise e
            end
          else Raise TemplateSyntaxError
      end
  end.

(** [Template(source).render(context)]; [skip] characters of [source]
    belong to the tag that was just rendered. *)
Fixpoint render_from (source : string) (skip : nat) (context : Context)
  : Outcome string :=
  match source with
  | EmptyString => Ok EmptyString
  | String c source' =>
      match skip with
      | S k => render_from source' k context
      | O =>
          match tag_at source with
          | Some (VarTag, content) =>
              out <- render_variable_tag content context ;;
              rest <- render_from source' (String.length content + 3) context ;;
              Ok (out ++ rest)
          | Some (BlockTag, _) => Raise TemplateSyntaxError
          | Some (CommentTag, content) =>
              render_from source' (String.length content + 3) context
          | None =>
              rest <- render_from source' 0 context ;;
              Ok (String c rest)
          end
      end
  end.

Definition template_render (source : string) (context : Context)
  : Outcome string :=
  render_from source 0 context.

(** [ast.literal_eval(s)] on integers, the three constants and plain
    quoted strings; anything else is reported as a malformed literal. *)
Definition literal_eval (s : string) : Outcome PyVal :=
  let s := lstrip_spaces s in
  if String.eqb s "True" then Ok (VBool true)
  else if String.eqb s "False" then Ok (VBool false)
  else if String.eqb s "None" then Ok VNone
  else
    match parse_int s with
    | Some z =>
        let digits := match s with
                      | String "-" d | String "+" d => d
                      | _ => s
                      end in
        if PyStr.startswith "0" digits && negb (Z.eqb z 0)
        then Raise SyntaxError
        else Ok (VInt z)
    | None =>
        match PyStr.first_char s, PyStr.last_char s with
        | Some a, Some b =>
            let body := PyStr.strip_ends s in
            if (Ascii.eqb a "034" || Ascii.eqb a "'") && Ascii.eqb b a
               && (2 <=? String.length s)%nat
               && negb (PyStr.contains a body)
               && negb (PyStr.contains "092" body)
               && negb (PyStr.contains "010" body)
            then Ok (VStr body)
            else Raise ValueError
        | _, _ => Raise ValueError
        end
    end.

(** Modelled from the spec: [ensure_quoted] of [django_cotton.utils],
    which is not among the sources.  The spec has the attrs string made
    of [key=quoted-value] pairs: the text of the value between double
    quotes. *)
Definition ensure_quoted (value : PyVal) : string :=
  String "034" (py_str value ++ String "034" EmptyString).

(** [get_template(path).render(local_ctx)] in an engine that has no
    template directory: no template is found. *)
Definition get_template_render (path : PyVal) (local_ctx : Context)
  : Outcome string :=
  Raise (OtherError "TemplateDoesNotExist").

Definition host (cotton_dir : option string) : Host :=
  Build_Host variable_resolve template_render literal_eval ensure_quoted
             cotton_dir get_template_render.

End Django.

(** ** The specification's notions *)

(** The component identifier of an invocation: the [is] attribute under
    the sentinel path [component], the declared path otherwise. *)
Definition component_identifier (self : CottonComponentNode) (attrs : Dict)
  : option PyVal :=
  if String.eqb (component_path self) "component" then dict_get attrs "is"
  else Some (VStr (component_path self)).

(** Every [.] replaced by [/] and every [-] replaced by [_]. *)
Definition normalize_char (c : ascii) : ascii :=
  if Ascii.eqb c "." then "/"%char
  else if Ascii.eqb c "-" then "_"%char
  else c.

Fixpoint normalized_component_path (ident : string) : string :=
  match ident with
  | EmptyString => EmptyString
  | String c rest => String (normalize_char c) (normalized_component_path rest)
  end.

(** Splitting a token once on [sep]: the text before the first [sep] and
    the text after it. *)
Fixpoint split_once (sep : ascii) (s : string) : option (string * string) :=
  match s with
  | EmptyString => None
  | String c s' =>
      if Ascii.eqb c sep then Some (EmptyString, s')
      else option_map (fun kv => (String c (fst kv), snd kv)) (split_once sep s')
  end.

(** A key that still carries the dynamic marker. *)
Definition has_dynamic_marker (key : string) : bool := PyStr.startswith ":" key.

(** A quoted value: double quotes around a text that has none. *)
Definition well_quoted (s : string) : bool :=
  match s with
  | EmptyString => false
  | String c rest =>
      Ascii.eqb c "034"
      && match PyStr.last_char rest with
         | Some l => Ascii.eqb l "034"
         | None => false
         end
      && negb (PyStr.contains "034" (PyStr.drop_last rest))
  end.

(** Re-parsing an attrs string into its [key=quoted-value] pairs: a key
    runs up to the first [=], a value from its opening double quote to the
    next one, and a space separates two pairs. *)
Inductive ScanMode : Type := InKey | AfterEq | InValue | AfterValue.

Fixpoint reparse_from (s : string) (mode : ScanMode) (key value : string)
  : option (list (string * string)) :=
  match s with
  | EmptyString =>
      match mode, key with
      | InKey, EmptyString => Some []
      | AfterValue, _ => Some []
      | _, _ => None
      end
  | String c s' =>
      match mode with
      | InKey =>
          if Ascii.eqb c "=" then reparse_from s' AfterEq key EmptyString
          else reparse_from s' InKey (key ++ String c EmptyString) EmptyString
      | AfterEq =>
          if Ascii.eqb c "034" then reparse_from s' InValue key (String c EmptyString)
          else None
      | InValue =>
          if Ascii.eqb c "034" then
            option_map (cons (key, value ++ String c EmptyString))
                       (reparse_from s' AfterValue EmptyString EmptyString)
          else reparse_from s' InValue key (value ++ String c EmptyString)
      | AfterValue =>
          if Ascii.eqb c " " then reparse_from s' InKey EmptyString EmptyString
          else None
      end
  end.

Definition reparse_attrs (s : string) : option (list (string * string)) :=
  reparse_from s InKey EmptyString EmptyString.

(** Two lists of keys that hold the same keys. *)
Definition same_keys (a b : list string) : Prop :=
  forall k, In k a <-> In k b.

(** ** Sample invocations *)

Module Sample.

(** A body without nested slots: it renders to [text] and leaves the
    context as it is. *)
Definition plain_body (text : string)
  : Context -> Outcome string * Context :=
  fun context => (Ok text, context).

(** A body with one nested named slot: it stores [content] as slot [name]
    of component [key] and renders to nothing. *)
Definition slot_body (key name content : string)
  : Context -> Outcome string * Context :=
  fun context =>
    let all := match ctx_named_slots context with Some s => s | None => [] end in
    let mine := match dict_get all key with Some d => d | None => [] end in
    (Ok EmptyString,
     {| ctx_vars := ctx_vars context;
        ctx_named_slots :=
          Some (dict_set all key (dict_set mine name (VStr content))) |}).

Definition node (path key : string) (kwargs : list (string * string))
  : CottonComponentNode :=
  {| nodelist := plain_body "body";
     component_path := path;
     component_key := key;
     kwargs := kwargs |}.

Definition context_of (vars : Dict) : Context :=
  {| ctx_vars := vars; ctx_named_slots := Some [] |}.

Definition django : Host := Django.host None.


End Sample.

(** * Properties *)

(** ** Exceptions and outcomes *)

Lemma try_except_ok {A : Type} (a : A) classes handler :
  try_except (Ok a) classes handler = Ok a.
Proof. reflexivity. Qed.

Lemma try_except_caught {A : Type} e classes (handler : Outcome A) :
  caught classes e = true ->
  try_except (Raise e) classes handler = handler.
Proof. intros H. unfold try_except. now rewrite H. Qed.

Lemma try_except_escapes {A : Type} e classes (handler : Outcome A) :
  caught classes e = false ->
  try_except (Raise e) classes handler = Raise e.
Proof. intros H. unfold try_except. now rewrite H. Qed.

(** ** Dynamic attributes *)

Section DynamicAttributes.
Variable h : Host.

Lemma process_resolved value context v :
  variable_resolve h value context = Ok v ->
  _process_dynamic_attribute h value context = Ok v.
Proof. intros H. unfold _process_dynamic_attribute. now rewrite H. Qed.

Lemma process_unresolved value context :
  variable_resolve h value context = Raise VariableDoesNotExist ->
  value <> EmptyString ->
  _process_dynamic_attribute h value context =
    (rendered <- _parse_template_string h value context ;;
     try_except (literal_eval h rendered) [ValueError; SyntaxError]
                (Ok (VStr rendered))).
Proof.
  intros H Hne. unfold _process_dynamic_attribute. rewrite H. cbn.
  destruct (String.eqb_spec value EmptyString); [contradiction | reflexivity].
Qed.

Lemma process_bare_flag context :
  variable_resolve h EmptyString context = Raise VariableDoesNotExist ->
  _process_dynamic_attribute h EmptyString context = Ok (VBool true).
Proof. intros H. unfold _process_dynamic_attribute. now rewrite H. Qed.

Lemma process_resolution_error value context e :
  variable_resolve h value context = Raise e ->
  caught [VariableDoesNotExist] e = false ->
  _process_dynamic_attribute h value context = Raise e.
Proof. intros H He. unfold _process_dynamic_attribute. now rewrite H, He. Qed.

(** On a host whose collaborators fail only in the ways the module
    handles, the cascade always ends in a value. *)
Lemma process_returns_on_tame_host value context :
  (forall e, variable_resolve h value context = Raise e ->
             e = VariableDoesNotExist) ->
  (forall e, template_render h value context = Raise e ->
             caught [ValueError; SyntaxError] e = true) ->
  (forall s e, literal_eval h s = Raise e ->
               caught [ValueError; SyntaxError] e = true) ->
  returns (_process_dynamic_attribute h value context).
Proof.
  intros Hv Ht Hl. unfold _process_dynamic_attribute, returns.
  destruct (variable_resolve h value context) as [v | e] eqn:E; [now eexists |].
  rewrite (Hv e eq_refl).
  change (caught [VariableDoesNotExist] VariableDoesNotExist) with true.
  cbv iota.
  destruct (String.eqb value EmptyString); [now eexists |].
  assert (L : forall s, exists a,
             try_except (literal_eval h s) [ValueError; SyntaxError]
                        (Ok (VStr s)) = Ok a).
  { intros s. destruct (literal_eval h s) as [v | e'] eqn:El.
    - now eexists.
    - rewrite try_except_caught by (eapply Hl; eassumption). now eexists. }
  unfold _parse_template_string.
  destruct (template_render h value context) as [s | e'] eqn:Et.
  - rewrite try_except_ok. apply L.
  - rewrite try_except_caught by (apply Ht; reflexivity). apply L.
Qed.

End DynamicAttributes.

(** C1.  A dynamic attribute whose raw string resolves as a variable of
    the render context gets exactly the value of the context, whatever its
    type: [_process_dynamic_attribute] returns it as it is, and
    [_build_attrs] stores it under the key without its marker.  The
    template rendering and the literal parser of the host do not come into
    it, whatever they would make of the string. *)
Theorem dynamic_attribute_takes_context_value :
  forall (h : Host) (name raw : string) (context : Context) (v : PyVal),
    variable_resolve h (strip_quotes raw) context = Ok v ->
    _process_dynamic_attribute h (strip_quotes raw) context = Ok v
    /\ _build_attrs_from h [(String ":" name, raw)] context [] = Ok [(name, v)].
Proof.
  intros h name raw context v H.
  pose proof (process_resolved h _ _ _ H) as P.
  split; [exact P |].
  cbn. now rewrite P.
Qed.

Lemma dynamic_attribute_takes_context_value_witness :
  let context := Sample.context_of [("user", VDict [("age", VInt 7)])] in
  _process_dynamic_attribute Sample.django (strip_quotes "user.age") context
    = Ok (VInt 7)
  /\ _build_attrs_from Sample.django [(":age", "user.age")] context []
    = Ok [("age", VInt 7)].
Proof.
  intro context.
  apply (dynamic_attribute_takes_context_value
           Sample.django "age" "user.age" context (VInt 7)).
  reflexivity.
Defined.




(** C6.  The cascade can raise: an exception of the template rendering
    that is neither a [ValueError] nor a [SyntaxError] leaves
    [_parse_template_string] and [_process_dynamic_attribute] as it is, and
    Django reports a malformed template with its own
    [TemplateSyntaxError], which is neither.  No string is returned. *)
Theorem template_error_escapes_the_cascade :
  forall (h : Host) (value : string) (context : Context) (e : Exn),
    variable_resolve h value context = Raise VariableDoesNotExist ->
    value <> EmptyString ->
    template_render h value context = Raise e ->
    caught [ValueError; SyntaxError] e = false ->
    _parse_template_string h value context = Raise e
    /\ _process_dynamic_attribute h value context = Raise e.
Proof.
  intros h value context e Hv Hne Ht He.
  assert (P : _parse_template_string h value context = Raise e).
  { unfold _parse_template_string. rewrite Ht. now apply try_except_escapes. }
  split; [exact P |].
  rewrite (process_unresolved h value context Hv Hne), P. reflexivity.
Qed.

Lemma template_error_escapes_the_cascade_witness :
  let context := Sample.context_of [("y", VStr "val")] in
  _parse_template_string Sample.django "{% bogus %}" context
    = Raise TemplateSyntaxError
  /\ _process_dynamic_attribute Sample.django "{% bogus %}" context
    = Raise TemplateSyntaxError.
Proof.
  intro context.
  apply (template_error_escapes_the_cascade
           Sample.django "{% bogus %}" context TemplateSyntaxError);
    [reflexivity | discriminate | reflexivity | reflexivity].
Defined.

(** ** Dicts *)

Lemma dict_get_set {V : Type} (d : list (string * V)) k v k' :
  dict_get (dict_set d k v) k' =
    if String.eqb k k' then Some v else dict_get d k'.
Proof.
  induction d as [| [a b] d IH]; cbn.
  - reflexivity.
  - destruct (String.eqb_spec a k) as [-> | Hak]; cbn.
    + destruct (String.eqb k k'); reflexivity.
    + rewrite IH.
      destruct (String.eqb_spec a k') as [-> | Hak'];
        destruct (String.eqb_spec k k') as [-> | Hkk']; congruence.
Qed.

Lemma dict_keys_set {V : Type} (d : list (string * V)) k v k' :
  In k' (dict_keys (dict_set d k v)) <-> k' = k \/ In k' (dict_keys d).
Proof.
  unfold dict_keys. induction d as [| [a b] d IH]; cbn.
  - intuition congruence.
  - destruct (String.eqb_spec a k) as [-> | Hak]; cbn.
    + intuition congruence.
    + rewrite IH. intuition congruence.
Qed.

(** ** The template path *)

Lemma component_tpl_path_normalizes ident :
  component_tpl_path ident = normalized_component_path ident.
Proof.
  unfold component_tpl_path.
  induction ident as [| c rest IH]; cbn; [reflexivity |].
  rewrite IH. f_equal. unfold normalize_char.
  destruct (Ascii.eqb_spec c ".") as [-> | Hdot]; reflexivity.
Qed.

Lemma callable_key_is k :
  PyStr.replace "-" "_" k = "is" -> k = "is".
Proof.
  destruct k as [| a [| b [| c k]]]; cbn; try discriminate.
  destruct (Ascii.eqb_spec a "-"); [discriminate |].
  destruct (Ascii.eqb_spec b "-"); [discriminate |].
  trivial.
Qed.

Lemma callable_attrs_without_is attrs :
  dict_get attrs "is" = None ->
  dict_get (callable_attrs attrs) "is" = None.
Proof.
  unfold callable_attrs.
  assert (G : forall acc : Dict,
             dict_get acc "is" = None ->
             dict_get attrs "is" = None ->
             dict_get
               (fold_left
                  (fun acc kv =>
                     dict_set acc (PyStr.replace "-" "_" (fst kv)) (snd kv))
                  attrs acc) "is" = None).
  { induction attrs as [| [k v] attrs IH]; intros acc Hacc Hattrs; cbn.
    - exact Hacc.
    - cbn in Hattrs.
      destruct (String.eqb_spec k "is") as [-> | Hk]; [discriminate |].
      apply IH; [| exact Hattrs].
      rewrite dict_get_set. cbn [fst snd].
      destruct (String.eqb_spec (PyStr.replace "-" "_" k) "is") as [E | _];
        [| exact Hacc].
      now apply callable_key_is in E. }
  intros H. now apply G.
Qed.

(** C4.  Whenever the invocation has a component identifier (its
    declared path, or under the sentinel path [component] the string of
    its [is] attribute), the resolved template path is the base directory
    (the configured [COTTON_DIR], else [cotton]), a slash, the identifier
    with every [.] turned to [/] and every [-] to [_], and [.html].  So
    [component] with [is] set to [widgets.button] gives
    [<base_dir>/widgets/button.html], and [my-thing] gives
    [<base_dir>/my_thing.html]. *)
Theorem template_path_is_base_dir_and_normalized_identifier :
  (forall (h : Host) (self : CottonComponentNode) (attrs : Dict) ident,
      component_identifier self attrs = Some (VStr ident) ->
      _generate_component_template_path h self attrs =
        Ok (VStr ((match COTTON_DIR h with Some d => d | None => "cotton" end)
                  ++ "/" ++ normalized_component_path ident ++ ".html")))
  /\ (forall (h : Host) (self : CottonComponentNode) (attrs : Dict),
        component_path self = "component" ->
        dict_get attrs "is" = Some (VStr "widgets.button") ->
        _generate_component_template_path h self attrs =
          Ok (VStr (base_dir h ++ "/widgets/button.html")))
  /\ (forall (h : Host) (self : CottonComponentNode) (attrs : Dict),
        component_path self = "my-thing" ->
        _generate_component_template_path h self attrs =
          Ok (VStr (base_dir h ++ "/my_thing.html"))).
Proof.
  assert (G : forall h self attrs ident,
             component_identifier self attrs = Some (VStr ident) ->
             _generate_component_template_path h self attrs =
               Ok (VStr (base_dir h ++ "/" ++ normalized_component_path ident
                         ++ ".html"))).
  { intros h self attrs ident H.
    unfold component_identifier in H.
    unfold _generate_component_template_path.
    destruct (String.eqb (component_path self) "component").
    - rewrite H. cbn. now rewrite component_tpl_path_normalizes.
    - injection H as <-. cbn. now rewrite component_tpl_path_normalizes. }
  split; [exact G | split].
  - intros h self attrs Hpath His.
    apply (G h self attrs "widgets.button").
    unfold component_identifier. now rewrite Hpath.
  - intros h self attrs Hpath.
    apply (G h self attrs "my-thing").
    unfold component_identifier. now rewrite Hpath.
Qed.

Lemma template_path_is_base_dir_and_normalized_identifier_witness :
  _generate_component_template_path (Django.host (Some "ui"))
    (Sample.node "component" "k1" []) [("is", VStr "widgets.button")]
    = Ok (VStr "ui/widgets/button.html")
  /\ _generate_component_template_path Sample.django
       (Sample.node "my-thing" "k2" []) []
     = Ok (VStr "cotton/my_thing.html")
  /\ _generate_component_template_path Sample.django
       (Sample.node "forms.text-input" "k3" []) []
     = Ok (VStr "cotton/forms/text_input.html").
Proof.
  destruct template_path_is_base_dir_and_normalized_identifier
    as [general [dynamic static]].
  split; [| split].
  - apply (dynamic (Django.host (Some "ui"))
             (Sample.node "component" "k1" [])
             [("is", VStr "widgets.button")]); reflexivity.
  - apply (static Sample.django (Sample.node "my-thing" "k2" []) []).
    reflexivity.
  - apply (general Sample.django (Sample.node "forms.text-input" "k3" []) []
             "forms.text-input").
    reflexivity.
Defined.

(** C5.  Under the sentinel path [component], when the resolved
    attributes have no [is], the path resolver returns the exception
    object [CottonIncompleteDynamicComponentException] as an ordinary
    value: it does not raise, and [render] hands that object to the
    template loader as the template to get. *)
Theorem missing_is_returns_the_exception_object :
  forall (h : Host) (self : CottonComponentNode),
    component_path self = "component" ->
    (forall attrs : Dict,
        dict_get attrs "is" = None ->
        _generate_component_template_path h self attrs
          = Ok (VExc incomplete_dynamic_component))
    /\ (forall (context context' : Context) (locals : Locals),
          render_locals h self context = (Ok locals, context') ->
          dict_get (attrs_dict locals) "is" = None ->
          render h self context =
            (get_template_render h (VExc incomplete_dynamic_component)
                                 (local_ctx locals),
             context')).
Proof.
  intros h self Hpath.
  assert (R : forall attrs : Dict,
             dict_get attrs "is" = None ->
             _generate_component_template_path h self attrs
               = Ok (VExc incomplete_dynamic_component)).
  { intros attrs His. unfold _generate_component_template_path.
    now rewrite Hpath, His. }
  split; [exact R |].
  intros context context' locals Hl His.
  unfold render. rewrite Hl.
  rewrite (R _ (callable_attrs_without_is _ His)). reflexivity.
Qed.

Lemma missing_is_returns_the_exception_object_witness :
  let self := Sample.node "component" "k" [("class", "wide")] in
  let context := Sample.context_of [] in
  _generate_component_template_path Sample.django self [("class", VStr "wide")]
    = Ok (VExc incomplete_dynamic_component)
  /\ exists locals context',
       render_locals Sample.django self context = (Ok locals, context')
       /\ dict_get (attrs_dict locals) "class" = Some (VStr "wide")
       /\ render Sample.django self context =
            (get_template_render Sample.django
               (VExc incomplete_dynamic_component) (local_ctx locals),
             context').
Proof.
  intros self context.
  destruct (missing_is_returns_the_exception_object Sample.django self eq_refl)
    as [resolver rendering].
  split.
  - apply resolver. reflexivity.
  - eexists _, _. split; [reflexivity |]. split; [reflexivity |].
    apply rendering; reflexivity.
Defined.

(** ** The local context and the slot store *)

Lemma dict_get_update_other {V : Type} (other d : list (string * V)) n :
  dict_get other n = None ->
  dict_get (dict_update d other) n = dict_get d n.
Proof.
  unfold dict_update. revert d.
  induction other as [| [k v] other IH]; intros d H; cbn; [reflexivity |].
  cbn in H. destruct (String.eqb_spec k n) as [-> | Hk]; [discriminate |].
  rewrite (IH _ H), dict_get_set.
  destruct (String.eqb_spec k n); [contradiction | reflexivity].
Qed.

Lemma local_update_vars other local_ctx :
  ctx_vars (local_update local_ctx other) = dict_update (ctx_vars local_ctx) other.
Proof.
  unfold local_update, dict_update. revert local_ctx.
  induction other as [| kv other IH]; intros local_ctx; cbn; [reflexivity |].
  now rewrite IH.
Qed.

Lemma sees_store_vars local_ctx store :
  ctx_vars (sees_store local_ctx store) = ctx_vars local_ctx.
Proof.
  unfold sees_store.
  destruct (ctx_named_slots local_ctx), store; reflexivity.
Qed.

(** The reference of a local context to the store: kept, or dropped. *)
Lemma local_set_store local_ctx k v :
  ctx_named_slots (local_set local_ctx k v) = None
  \/ ctx_named_slots (local_set local_ctx k v) = ctx_named_slots local_ctx.
Proof.
  unfold local_set. cbn.
  destruct (String.eqb k "cotton_named_slots"); auto.
Qed.

Lemma local_update_store other local_ctx :
  ctx_named_slots (local_update local_ctx other) = None
  \/ ctx_named_slots (local_update local_ctx other) = ctx_named_slots local_ctx.
Proof.
  unfold local_update. revert local_ctx.
  induction other as [| kv other IH]; intros local_ctx; cbn; [auto |].
  destruct (IH (local_set local_ctx (fst kv) (snd kv))) as [H | H]; [auto |].
  rewrite H. apply local_set_store.
Qed.

Lemma sees_store_store local_ctx store :
  ctx_named_slots (sees_store local_ctx store) = store
  \/ ctx_named_slots (sees_store local_ctx store) = ctx_named_slots local_ctx.
Proof.
  unfold sees_store.
  destruct (ctx_named_slots local_ctx) eqn:E, store; cbn; auto.
Qed.

Lemma named_slots_after_reset store key :
  named_slots_for (reset_slots store key) key = [].
Proof.
  destruct store as [all |]; cbn; [| reflexivity].
  now rewrite dict_get_set, String.eqb_refl.
Qed.

Lemma dict_set_twice {V : Type} (d : list (string * V)) k v v' :
  dict_set (dict_set d k v) k v' = dict_set d k v'.
Proof.
  induction d as [| [a b] d IH]; cbn.
  - now rewrite String.eqb_refl.
  - destruct (String.eqb_spec a k) as [-> | Hak]; cbn.
    + now rewrite String.eqb_refl.
    + destruct (String.eqb_spec a k); [contradiction | now rewrite IH].
Qed.

(** What [render_locals] leaves and returns when it does not raise. *)
Lemma render_locals_ok h self context locals context' :
  render_locals h self context = (Ok locals, context') ->
  let after := snd (nodelist self context) in
  let store := ctx_named_slots after in
  let consumed := named_slots_for store (component_key self) in
  exists attrs0 slot,
    _build_attrs h self context = Ok attrs0
    /\ fst (nodelist self context) = Ok slot
    /\ context' = {| ctx_vars := ctx_vars after;
                     ctx_named_slots := reset_slots store (component_key self) |}
    /\ named_slots locals = consumed
    /\ expression_attrs h consumed
         (local_update (local_set (sees_store context store) "slot" (VStr slot))
                       consumed)
         attrs0 = Ok (attrs_dict locals)
    /\ local_ctx locals =
         sees_store
           (local_update
              (local_set
                 (local_set
                    (local_update
                       (local_set (sees_store context store) "slot" (VStr slot))
                       consumed)
                    "attrs" (VStr (attrs_string h (attrs_dict locals))))
                 "attrs_dict" (VDict (attrs_dict locals)))
              (callable_attrs (attrs_dict locals)))
           (reset_slots store (component_key self)).
Proof.
  unfold render_locals. intros H.
  destruct (_build_attrs h self context) as [attrs0 | e]; [| discriminate].
  destruct (nodelist self context) as [body after]. cbn [fst snd].
  destruct body as [slot | e]; [| discriminate].
  destruct (expression_attrs h _ _ attrs0) as [attrs | e] eqn:E; [| discriminate].
  injection H as <- <-. cbn.
  exists attrs0, slot. repeat split; assumption.
Qed.

(** C3.  When [render] has consumed the named slots of its component key
    and reaches the template path, the slot store of the context has the
    empty mapping under that key, and under every other key what it had.
    So the next invocation with the same key consumes only what its own
    body stores, built on an empty entry: nothing when that body stores no
    slot, in which case the store that its local context refers to has
    nothing under the key and every name of its local context other than
    [slot], [attrs], [attrs_dict] and its attributes is bound as in the
    enclosing context.  Whatever slots the body of the first invocation
    stored under the key, the context that the following invocations get
    is the same. *)
Theorem slots_are_reset_after_use :
  forall (h : Host) (self : CottonComponentNode)
         (context context' : Context) (locals : Locals),
    render_locals h self context = (Ok locals, context') ->
    named_slots locals
      = named_slots_for (ctx_named_slots (snd (nodelist self context)))
                        (component_key self)
    /\ (forall all,
          ctx_named_slots (snd (nodelist self context)) = Some all ->
          exists all',
            ctx_named_slots context' = Some all'
            /\ dict_get all' (component_key self) = Some []
            /\ forall other, other <> component_key self ->
                             dict_get all' other = dict_get all other)
    /\ (ctx_named_slots (snd (nodelist self context)) = None ->
        ctx_named_slots context' = None)
    /\ (forall (next : CottonComponentNode) (context2 : Context)
               (locals2 : Locals),
          component_key next = component_key self ->
          render_locals h next context' = (Ok locals2, context2) ->
          (forall stored : Dict -> Dict,
              named_slots_for (ctx_named_slots (snd (nodelist next context')))
                              (component_key next)
                = stored (named_slots_for (ctx_named_slots context')
                                          (component_key next)) ->
              named_slots locals2 = stored [])
          /\ (named_slots_for (ctx_named_slots (snd (nodelist next context')))
                              (component_key next)
                = named_slots_for (ctx_named_slots context') (component_key next) ->
              named_slots_for (ctx_named_slots (local_ctx locals2))
                              (component_key next) = []
              /\ (forall n,
                    n <> "slot" -> n <> "attrs" -> n <> "attrs_dict" ->
                    dict_get (callable_attrs (attrs_dict locals2)) n = None ->
                    dict_get (ctx_vars (local_ctx locals2)) n
                      = dict_get (ctx_vars context') n)))
    /\ (forall (other_first : CottonComponentNode) (locals_b : Locals)
               (context_b : Context)
               (vars : Dict) (all : SlotStore) (slots_a slots_b : Dict),
          component_key other_first = component_key self ->
          snd (nodelist self context)
            = {| ctx_vars := vars;
                 ctx_named_slots :=
                   Some (dict_set all (component_key self) slots_a) |} ->
          snd (nodelist other_first context)
            = {| ctx_vars := vars;
                 ctx_named_slots :=
                   Some (dict_set all (component_key self) slots_b) |} ->
          render_locals h other_first context = (Ok locals_b, context_b) ->
          context_b = context').
Proof.
  intros h self context context' locals H.
  destruct (render_locals_ok _ _ _ _ _ H)
    as (attrs0 & slot & _ & _ & Hctx & Hconsumed & _ & _).
  assert (Hreset : named_slots_for (ctx_named_slots context') (component_key self)
                   = []).
  { rewrite Hctx. cbn. apply named_slots_after_reset. }
  split; [exact Hconsumed |].
  split; [| split; [| split]].
  - intros all Hall. rewrite Hctx, Hall. cbn.
    eexists. split; [reflexivity |]. split.
    + now rewrite dict_get_set, String.eqb_refl.
    + intros other Hother. rewrite dict_get_set.
      destruct (String.eqb_spec (component_key self) other);
        [congruence | reflexivity].
  - intros Hnone. rewrite Hctx, Hnone. reflexivity.
  - intros next context2 locals2 Hkey H2.
    destruct (render_locals_ok _ _ _ _ _ H2)
      as (attrs2 & slot2 & _ & _ & _ & Hnamed & _ & Hlocal).
    rewrite Hkey in *. split.
    + intros stored Hstored. rewrite Hreset in Hstored. congruence.
    + intros Hbody. rewrite Hreset in Hbody.
      rewrite Hbody in Hnamed, Hlocal. split.
      * rewrite Hlocal.
        destruct (sees_store_store
                    (local_update
                       (local_set
                          (local_set
                             (local_update
                                (local_set
                                   (sees_store context'
                                      (ctx_named_slots (snd (nodelist next context'))))
                                   "slot" (VStr slot2)) [])
                             "attrs" (VStr (attrs_string h (attrs_dict locals2))))
                          "attrs_dict" (VDict (attrs_dict locals2)))
                       (callable_attrs (attrs_dict locals2)))
                    (reset_slots (ctx_named_slots (snd (nodelist next context')))
                                 (component_key self)))
          as [E | E]; rewrite E; [apply named_slots_after_reset |].
        destruct (local_update_store (callable_attrs (attrs_dict locals2))
                    (local_set
                       (local_set
                          (local_update
                             (local_set
                                (sees_store context'
                                   (ctx_named_slots (snd (nodelist next context'))))
                                "slot" (VStr slot2)) [])
                          "attrs" (VStr (attrs_string h (attrs_dict locals2))))
                       "attrs_dict" (VDict (attrs_dict locals2))))
          as [E1 | E1]; rewrite E1; [reflexivity |].
        cbn.
        destruct (sees_store_store context'
                    (ctx_named_slots (snd (nodelist next context'))))
          as [E2 | E2]; rewrite E2; [exact Hbody | exact Hreset].
      * intros n Hslot Hattrs Hdict Hcallable.
        rewrite Hlocal, sees_store_vars, local_update_vars.
        rewrite (dict_get_update_other _ _ _ Hcallable).
        cbn. rewrite !dict_get_set, sees_store_vars.
        destruct (String.eqb_spec "attrs_dict" n); [congruence |].
        destruct (String.eqb_spec "attrs" n); [congruence |].
        destruct (String.eqb_spec "slot" n); [congruence |].
        reflexivity.
  - intros other_first locals_b context_b vars all slots_a slots_b Hkey Ha Hb Hrun.
    destruct (render_locals_ok _ _ _ _ _ Hrun)
      as (_ & _ & _ & _ & Hctx_b & _).
    rewrite Hctx, Hctx_b, Ha, Hb, Hkey. cbn.
    now rewrite !dict_set_twice.
Qed.

Lemma slots_are_reset_after_use_witness :
  let first := {| nodelist := Sample.slot_body "k" "title" "First";
                  component_path := "card";
                  component_key := "k";
                  kwargs := [] |} in
  let second := {| nodelist := Sample.slot_body "k" "footer" "Second";
                   component_path := "card";
                   component_key := "k";
                   kwargs := [] |} in
  let plain := Sample.node "card" "k" [] in
  let context :=
    {| ctx_vars := [("title", VStr "Page")];
       ctx_named_slots := Some [("other", [("title", VStr "Kept")])] |} in
  exists locals context' locals2 context2 locals3 context3,
    render_locals Sample.django first context = (Ok locals, context')
    /\ dict_get (ctx_vars (local_ctx locals)) "title" = Some (VStr "First")
    /\ ctx_named_slots context'
       = Some [("other", [("title", VStr "Kept")]); ("k", [])]
    /\ render_locals Sample.django second context' = (Ok locals2, context2)
    /\ named_slots locals2 = [("footer", VStr "Second")]
    /\ render_locals Sample.django plain context' = (Ok locals3, context3)
    /\ named_slots locals3 = []
    /\ dict_get (ctx_vars (local_ctx locals3)) "title" = Some (VStr "Page")
    /\ snd (render_locals Sample.django second context) = context'.
Proof.
  intros first second plain context.
  eexists _, _, _, _, _, _.
  split; [reflexivity |].
  split; [reflexivity |].
  destruct (slots_are_reset_after_use Sample.django first context _ _ eq_refl)
    as (_ & Hentry & _ & Hnext & Hsame).
  split.
  { destruct (Hentry _ eq_refl) as (all' & Hstore & _ & _).
    rewrite Hstore. injection Hstore as <-. reflexivity. }
  split; [reflexivity |].
  split.
  { destruct (Hnext second _ _ eq_refl eq_refl) as [Hbuilt _].
    apply (Hbuilt (fun slots => dict_set slots "footer" (VStr "Second"))).
    reflexivity. }
  split; [reflexivity |].
  destruct (Hnext plain _ _ eq_refl eq_refl) as [_ Hplain].
  destruct (Hplain eq_refl) as [_ Hvars].
  split; [reflexivity |].
  split.
  { rewrite (Hvars "title"); [reflexivity | discriminate | discriminate
                              | discriminate | reflexivity]. }
  eassert (E : render_locals Sample.django second context = (Ok _, _))
    by reflexivity.
  rewrite E. cbn [snd].
  apply (Hsame second _ _ [("title", VStr "Page")]
           [("other", [("title", VStr "Kept")])]
           [("title", VStr "First")] [("footer", VStr "Second")]
           eq_refl eq_refl eq_refl E).
Defined.

(** ** Attribute tokens *)

Lemma split_unfolds sep s :
  PyStr.split sep s =
    match split_once sep s with
    | None => [s]
    | Some (k, v) => k :: PyStr.split sep v
    end.
Proof.
  induction s as [| c s IH]; cbn; [reflexivity |].
  destruct (Ascii.eqb c sep); [reflexivity |].
  rewrite IH. destruct (split_once sep s) as [[k v] |]; reflexivity.
Qed.

Lemma split_once_none sep s :
  split_once sep s = None <-> PyStr.contains sep s = false.
Proof.
  induction s as [| c s IH]; cbn; [tauto |].
  destruct (Ascii.eqb c sep); cbn; [split; discriminate |].
  rewrite <- IH. destruct (split_once sep s); cbn; split; congruence.
Qed.

Lemma split_once_parts sep s k v :
  split_once sep s = Some (k, v) ->
  s = k ++ String sep v /\ PyStr.contains sep k = false.
Proof.
  revert k. induction s as [| c s IH]; intros k; cbn; [discriminate |].
  destruct (Ascii.eqb_spec c sep) as [-> | Hc].
  - intros [= <- <-]. auto.
  - destruct (split_once sep s) as [[k' v'] |]; cbn; [| discriminate].
    intros [= <- <-]. destruct (IH k' eq_refl) as [-> Hk].
    split; [reflexivity |]. cbn.
    destruct (Ascii.eqb_spec c sep); [contradiction | exact Hk].
Qed.

(** A token without [=] is a key with the empty value. *)
Lemma parse_bit_without_equals bit :
  PyStr.contains "=" bit = false -> parse_bit bit = (bit, EmptyString).
Proof.
  intros H. unfold parse_bit. rewrite split_unfolds.
  apply split_once_none in H. now rewrite H.
Qed.

(** A token with a single [=] is split at it. *)
Lemma parse_bit_single_equals bit k v :
  split_once "=" bit = Some (k, v) ->
  PyStr.contains "=" v = false ->
  parse_bit bit = (k, v).
Proof.
  intros H Hv. unfold parse_bit. rewrite split_unfolds, H, split_unfolds.
  apply split_once_none in Hv. now rewrite Hv.
Qed.

(** A static attribute with the empty value is the boolean true. *)
Lemma bare_static_attribute_is_true h key context :
  PyStr.startswith ":" key = false ->
  _build_attrs_from h [(key, EmptyString)] context [] = Ok [(key, VBool true)].
Proof. intros H. cbn. now rewrite H. Qed.

(** C7.  The tag function does not split a token once: it splits it at
    every [=] and takes a key and a value only from exactly two pieces.  A
    token whose value has an [=] of its own, which one split would cut
    into its key and that value, becomes as a whole the key of an
    attribute with the empty value, and a static one is then the boolean
    true. *)
Theorem token_with_equals_in_value_is_not_split :
  forall (h : Host) (bit k v : string) (context : Context),
    split_once "=" bit = Some (k, v) ->
    PyStr.contains "=" v = true ->
    parse_bit bit = (bit, EmptyString)
    /\ parse_bit bit <> (k, v)
    /\ (forall tag path key body,
          exists node,
            cotton_component [tag; path; key; bit] body = Ok node
            /\ kwargs node = [(bit, EmptyString)]
            /\ (PyStr.startswith ":" bit = false ->
                _build_attrs h node context = Ok [(bit, VBool true)])).
Proof.
  intros h bit k v context H Hv.
  assert (P : parse_bit bit = (bit, EmptyString)).
  { unfold parse_bit. rewrite split_unfolds, H, split_unfolds.
    destruct (split_once "=" v) as [[k2 v2] |] eqn:E.
    - rewrite split_unfolds. destruct (split_once "=" v2) as [[? ?] |]; reflexivity.
    - apply split_once_none in E. congruence. }
  split; [exact P | split].
  - rewrite P. intros [= _ E]. subst v. discriminate.
  - intros tag path key body. eexists. split; [reflexivity |].
    unfold _build_attrs, parse_kwargs. cbn. rewrite P. cbn.
    split; [reflexivity |].
    intros Hstatic. now rewrite Hstatic.
Qed.

Lemma token_with_equals_in_value_is_not_split_witness :
  let bit := "href=" ++ dquote ++ "/search?q=1" ++ dquote in
  parse_bit bit = (bit, EmptyString)
  /\ parse_bit bit <> ("href", dquote ++ "/search?q=1" ++ dquote)
  /\ (forall tag path key body,
        exists node,
          cotton_component [tag; path; key; bit] body = Ok node
          /\ kwargs node = [(bit, EmptyString)]
          /\ (PyStr.startswith ":" bit = false ->
              _build_attrs Sample.django node (Sample.context_of [])
                = Ok [(bit, VBool true)])).
Proof.
  intro bit.
  apply (token_with_equals_in_value_is_not_split Sample.django bit "href"
           (dquote ++ "/search?q=1" ++ dquote) (Sample.context_of []));
    reflexivity.
Defined.

(** ** The keys of the resolved attributes *)

Lemma lstrip_leaves_no_marker s :
  has_dynamic_marker (PyStr.lstrip ":" s) = false.
Proof.
  unfold has_dynamic_marker.
  induction s as [| c s IH]; cbn; [reflexivity |].
  destruct (Ascii.eqb c ":") eqn:E; [exact IH | cbn; exact E].
Qed.

Lemma replace_leaves_no_dash k :
  PyStr.contains "-" (PyStr.replace "-" "_" k) = false.
Proof.
  induction k as [| c k IH]; cbn; [reflexivity |].
  rewrite IH. destruct (Ascii.eqb_spec c "-") as [-> | H]; cbn.
  - reflexivity.
  - destruct (Ascii.eqb_spec c "-"); [contradiction | reflexivity].
Qed.

(** Every key under which [render] exposes an attribute to the template
    is free of dashes. *)
Lemma callable_attrs_keys_normalized attrs k :
  In k (dict_keys (callable_attrs attrs)) -> PyStr.contains "-" k = false.
Proof.
  unfold callable_attrs.
  assert (G : forall acc : Dict,
             (forall k, In k (dict_keys acc) -> PyStr.contains "-" k = false) ->
             forall k,
               In k (dict_keys
                       (fold_left
                          (fun acc kv =>
                             dict_set acc (PyStr.replace "-" "_" (fst kv)) (snd kv))
                          attrs acc)) ->
               PyStr.contains "-" k = false).
  { induction attrs as [| [a v] attrs IH]; intros acc Hacc k'; cbn.
    - apply Hacc.
    - apply IH. intros k'' Hin. apply dict_keys_set in Hin.
      destruct Hin as [-> | Hin]; [apply replace_leaves_no_dash | now apply Hacc]. }
  apply G. intros k' [].
Qed.

(** The attributes moved over from the slots lose every leading colon. *)
Lemma expression_attrs_from_keys h names slots local_ctx attrs attrs' :
  expression_attrs_from h names slots local_ctx attrs = Ok attrs' ->
  forall k, In k (dict_keys attrs') ->
            In k (dict_keys attrs) \/ has_dynamic_marker k = false.
Proof.
  revert attrs. induction names as [| name names IH]; intros attrs; cbn.
  - intros [= <-]. auto.
  - destruct (dict_index slots name) as [raw | e]; cbn; [| discriminate].
    destruct (match raw with
              | VStr value => _process_dynamic_attribute h value local_ctx
              | _ => Raise TypeError
              end) as [evaluated | e]; cbn; [| discriminate].
    destruct name; try discriminate.
    intros H k Hin. destruct (IH _ H k Hin) as [Hk | Hk]; [| auto].
    apply dict_keys_set in Hk. destruct Hk as [-> | Hk]; [| auto].
    right. apply lstrip_leaves_no_marker.
Qed.

(** [_build_attrs] takes one colon off a dynamic key: a key of the result
    starts with a colon only when the token started with two. *)
Lemma build_attrs_from_keys h items context attrs attrs' :
  _build_attrs_from h items context attrs = Ok attrs' ->
  forall k, In k (dict_keys attrs') ->
            In k (dict_keys attrs)
            \/ In k (dict_keys items) /\ has_dynamic_marker k = false
            \/ In (String ":" k) (dict_keys items).
Proof.
  revert attrs. induction items as [| [key value] items IH]; intros attrs; cbn.
  - intros [= <-]. auto.
  - intros H k Hin.
    assert (step : forall v,
               _build_attrs_from h items context (dict_set attrs key v) = Ok attrs' ->
               PyStr.startswith ":" key = false ->
               In k (dict_keys attrs)
               \/ (key = k \/ In k (dict_keys items)) /\ has_dynamic_marker k = false
               \/ (key = String ":" k \/ In (String ":" k) (dict_keys items))).
    { intros v Hv Hkey. destruct (IH _ Hv k Hin) as [Hk | [[Hk Hm] | Hk]].
      - apply dict_keys_set in Hk. destruct Hk as [-> | Hk]; auto.
      - auto.
      - auto. }
    destruct (PyStr.startswith ":" key) eqn:Hkey.
    + destruct (_process_dynamic_attribute h (strip_quotes value) context)
        as [v | e]; cbn in H; [| discriminate].
      destruct (IH _ H k Hin) as [Hk | [[Hk Hm] | Hk]]; [| auto | auto].
      apply dict_keys_set in Hk. destruct Hk as [-> | Hk]; [| auto].
      right. right. left.
      destruct key as [| c key]; [discriminate |]. cbn in Hkey |- *.
      apply Ascii.eqb_eq in Hkey. now subst c.
    + destruct (String.eqb (strip_quotes value) EmptyString);
        now apply (step _ H).
Qed.

(** C8.  A key can keep a dynamic marker: [_build_attrs] takes exactly
    one colon off a dynamic key, so the token key [::name] ends as the key
    [:name] of the resolved attributes, which still starts with the
    marker. *)
Theorem double_colon_key_keeps_a_marker :
  forall (h : Host) (name raw : string) (context : Context) (v : PyVal),
    _process_dynamic_attribute h (strip_quotes raw) context = Ok v ->
    _build_attrs_from h [(String ":" (String ":" name), raw)] context []
      = Ok [(String ":" name, v)]
    /\ has_dynamic_marker (String ":" name) = true.
Proof.
  intros h name raw context v H. split; [| reflexivity].
  cbn. now rewrite H.
Qed.

Lemma double_colon_key_keeps_a_marker_witness :
  _build_attrs_from Sample.django
    (parse_kwargs ["::count=" ++ dquote ++ "1" ++ dquote])
    (Sample.context_of []) []
    = Ok [(":count", VInt 1)]
  /\ has_dynamic_marker ":count" = true.
Proof.
  apply (double_colon_key_keeps_a_marker Sample.django "count"
           (dquote ++ "1" ++ dquote) (Sample.context_of []) (VInt 1)).
  reflexivity.
Defined.

(** ** A lone quote *)

Lemma lone_quote_is_stripped (q : ascii) :
  q = "034"%char \/ q = "'"%char ->
  strip_quotes (String q EmptyString) = EmptyString.
Proof. intros [-> | ->]; reflexivity. Qed.

Lemma lone_quote_static_is_true h (q : ascii) key context :
  q = "034"%char \/ q = "'"%char ->
  PyStr.startswith ":" key = false ->
  _build_attrs_from h [(key, String q EmptyString)] context []
    = Ok [(key, VBool true)].
Proof.
  intros Hq Hkey. cbn [_build_attrs_from].
  rewrite (lone_quote_is_stripped q Hq), Hkey. reflexivity.
Qed.

Lemma lone_quote_dynamic_is_resolved h (q : ascii) name context :
  q = "034"%char \/ q = "'"%char ->
  _build_attrs_from h [(String ":" name, String q EmptyString)] context []
    = (v <- _process_dynamic_attribute h EmptyString context ;;
       Ok [(name, v)]).
Proof.
  intros Hq. cbn [_build_attrs_from].
  rewrite (lone_quote_is_stripped q Hq). reflexivity.
Qed.

(** C10.  A dynamic attribute whose raw value is a lone quote is
    stripped to the empty string and handed to the variable resolution,
    and an exception of that resolution other than [VariableDoesNotExist]
    is not handled: the attribute does not become the boolean true, the
    call raises.  Django's [Variable] raises [IndexError] on the empty
    string. *)
Theorem lone_quote_dynamic_attribute_raises :
  forall (h : Host) (q : ascii) (name : string) (context : Context) (e : Exn),
    q = "034"%char \/ q = "'"%char ->
    variable_resolve h EmptyString context = Raise e ->
    caught [VariableDoesNotExist] e = false ->
    strip_quotes (String q EmptyString) = EmptyString
    /\ _build_attrs_from h [(String ":" name, String q EmptyString)] context []
       = Raise e.
Proof.
  intros h q name context e Hq Hv He.
  split; [now apply lone_quote_is_stripped |].
  rewrite (lone_quote_dynamic_is_resolved h q name context Hq).
  now rewrite (process_resolution_error h _ _ _ Hv He).
Qed.

Lemma lone_quote_dynamic_attribute_raises_witness :
  strip_quotes dquote = EmptyString
  /\ _build_attrs_from Sample.django (parse_kwargs [":open=" ++ dquote])
       (Sample.context_of []) []
     = Raise IndexError.
Proof.
  apply (lone_quote_dynamic_attribute_raises Sample.django "034" "open"
           (Sample.context_of []) IndexError);
    [left; reflexivity | reflexivity | reflexivity].
Defined.

(** ** The attrs string *)

Lemma append_empty_r (s : string) : s ++ EmptyString = s.
Proof. induction s as [| c s IH]; cbn; [reflexivity | now rewrite IH]. Qed.

Lemma append_associative (a b c : string) : (a ++ b) ++ c = a ++ (b ++ c).
Proof. induction a as [| x a IH]; cbn; [reflexivity | now rewrite IH]. Qed.

Lemma last_char_split rest l :
  PyStr.last_char rest = Some l ->
  rest = PyStr.drop_last rest ++ String l EmptyString.
Proof.
  induction rest as [| c rest IH]; [discriminate |].
  destruct rest as [| c' rest'].
  - cbn. now intros [= ->].
  - intros H. change (PyStr.last_char (String c' rest') = Some l) in H.
    change (String c (String c' rest')
            = String c (PyStr.drop_last (String c' rest') ++ String l EmptyString)).
    f_equal. now apply IH.
Qed.

Lemma well_quoted_inv q :
  well_quoted q = true ->
  exists body, q = String "034" (body ++ String "034" EmptyString)
               /\ PyStr.contains "034" body = false.
Proof.
  destruct q as [| c rest]; [discriminate |]. cbn.
  destruct (Ascii.eqb_spec c "034") as [-> | _]; [| discriminate].
  destruct (PyStr.last_char rest) as [l |] eqn:El; [| discriminate].
  destruct (Ascii.eqb_spec l "034") as [-> | _]; [| discriminate].
  cbn. intros H. apply negb_true_iff in H.
  exists (PyStr.drop_last rest). split; [| exact H].
  f_equal. now apply last_char_split.
Qed.

Lemma reparse_key k rest acc :
  PyStr.contains "=" k = false ->
  reparse_from (k ++ String "=" rest) InKey acc EmptyString
    = reparse_from rest AfterEq (acc ++ k) EmptyString.
Proof.
  revert acc. induction k as [| c k IH]; intros acc H; cbn.
  - now rewrite append_empty_r.
  - cbn in H. apply orb_false_iff in H. destruct H as [Hc Hk].
    rewrite Hc, (IH _ Hk), append_associative. reflexivity.
Qed.

Lemma reparse_value body rest key acc :
  PyStr.contains "034" body = false ->
  reparse_from (body ++ String "034" rest) InValue key acc
    = option_map (cons (key, acc ++ body ++ String "034" EmptyString))
                 (reparse_from rest AfterValue EmptyString EmptyString).
Proof.
  revert acc. induction body as [| c body IH]; intros acc H; cbn.
  - reflexivity.
  - cbn in H. apply orb_false_iff in H. destruct H as [Hc Hb].
    rewrite Hc, (IH _ Hb), append_associative. reflexivity.
Qed.

Lemma reparse_pair k q rest :
  PyStr.contains "=" k = false ->
  well_quoted q = true ->
  reparse_from ((k ++ "=" ++ q) ++ rest) InKey EmptyString EmptyString
    = option_map (cons (k, q))
                 (reparse_from rest AfterValue EmptyString EmptyString).
Proof.
  intros Hk Hq. destruct (well_quoted_inv q Hq) as (body & -> & Hbody).
  rewrite append_associative.
  change ("=" ++ String "034" (body ++ String "034" EmptyString))
    with (String "=" (String "034" (body ++ String "034" EmptyString))).
  change (String "=" (String "034" (body ++ String "034" EmptyString)) ++ rest)
    with (String "=" (String "034" ((body ++ String "034" EmptyString) ++ rest))).
  rewrite (reparse_key k _ EmptyString Hk).
  cbn [append reparse_from]. cbn [Ascii.eqb Bool.eqb andb].
  rewrite append_associative.
  change (String "034" EmptyString ++ rest) with (String "034" rest).
  now rewrite (reparse_value body rest k _ Hbody).
Qed.

Lemma reparse_attrs_string h attrs :
  Forall (fun kv => PyStr.contains "=" (fst kv) = false
                    /\ well_quoted (ensure_quoted h (snd kv)) = true) attrs ->
  reparse_attrs (attrs_string h attrs)
    = Some (map (fun kv => (fst kv, ensure_quoted h (snd kv))) attrs).
Proof.
  unfold reparse_attrs, attrs_string.
  induction attrs as [| kv attrs IH]; intros H; [reflexivity |].
  inversion H as [| ? ? [Hk Hq] Hrest]; subst.
  destruct attrs as [| kv' attrs].
  - cbn [map PyStr.join].
    rewrite <- (append_empty_r (fst kv ++ "=" ++ ensure_quoted h (snd kv))).
    now rewrite (reparse_pair _ _ EmptyString Hk Hq).
  - specialize (IH Hrest).
    change (PyStr.join " "
              (map (fun kv0 => fst kv0 ++ "=" ++ ensure_quoted h (snd kv0))
                   (kv :: kv' :: attrs)))
      with ((fst kv ++ "=" ++ ensure_quoted h (snd kv))
            ++ String " "
                 (PyStr.join " "
                    (map (fun kv0 => fst kv0 ++ "=" ++ ensure_quoted h (snd kv0))
                         (kv' :: attrs)))).
    rewrite (reparse_pair _ _ _ Hk Hq).
    cbn [reparse_from]. cbn [Ascii.eqb Bool.eqb andb].
    rewrite IH. reflexivity.
Qed.

(** C9, as stated, does not hold: whatever the re-parsing, the attrs
    string does not determine the keys.  The tokens [a="x"] and [b="y"]
    give the attributes [a] and [b]; the token [:a=label], with [label]
    bound to the text [x" b="y], gives the one attribute [a]; both
    mappings have the attrs string [a="x" b="y"]. *)
Lemma attrs_string_does_not_determine_keys :
  ~ (exists reparse : string -> list string,
       forall (bits : list string) (context : Context) (attrs : Dict),
         _build_attrs_from Sample.django (parse_kwargs bits) context [] = Ok attrs ->
         same_keys (reparse (attrs_string Sample.django attrs)) (dict_keys attrs)).
Proof.
  intros [reparse H].
  pose (context :=
          Sample.context_of
            [("label", VStr ("x" ++ dquote ++ " b=" ++ dquote ++ "y"))]).
  pose proof (H ["a=" ++ dquote ++ "x" ++ dquote;
                 "b=" ++ dquote ++ "y" ++ dquote]
                context _ eq_refl) as two.
  pose proof (H [":a=label"] context _ eq_refl) as one.
  change (attrs_string Sample.django [("a", VStr "x"); ("b", VStr "y")])
    with (attrs_string Sample.django
            [("a", VStr ("x" ++ dquote ++ " b=" ++ dquote ++ "y"))])
    in two.
  assert (Hb : In "b" (dict_keys [("a", VStr "x"); ("b", VStr "y")]))
    by (cbn; auto).
  apply two in Hb. apply one in Hb.
  cbn in Hb. destruct Hb as [Hb | []]. discriminate.
Qed.

(** C9, amended.  When no key of the resolved attributes contains [=]
    and every quoted value is a text without double quotes between two
    double quotes, re-parsing the attrs string into its key=quoted-value
    pairs gives back the keys of the mapping, in their order, each with its
    quoted value. *)
Theorem attrs_string_reparses_to_its_keys :
  forall (h : Host) (attrs : Dict),
    Forall (fun kv => PyStr.contains "=" (fst kv) = false
                      /\ well_quoted (ensure_quoted h (snd kv)) = true) attrs ->
    exists pairs,
      reparse_attrs (attrs_string h attrs) = Some pairs
      /\ dict_keys pairs = dict_keys attrs
      /\ map snd pairs = map (fun kv => ensure_quoted h (snd kv)) attrs.
Proof.
  intros h attrs H.
  exists (map (fun kv => (fst kv, ensure_quoted h (snd kv))) attrs).
  split; [now apply reparse_attrs_string |].
  unfold dict_keys. rewrite !map_map. split; reflexivity.
Qed.

Lemma attrs_string_reparses_to_its_keys_witness :
  let attrs := [("class", VStr "btn wide"); ("disabled", VBool true);
                ("x-data", VStr "{open: false}"); ("tabindex", VInt 3)] in
  attrs_string Sample.django attrs
    = "class=" ++ dquote ++ "btn wide" ++ dquote
      ++ " disabled=" ++ dquote ++ "True" ++ dquote
      ++ " x-data=" ++ dquote ++ "{open: false}" ++ dquote
      ++ " tabindex=" ++ dquote ++ "3" ++ dquote
  /\ exists pairs,
       reparse_attrs (attrs_string Sample.django attrs) = Some pairs
       /\ dict_keys pairs = ["class"; "disabled"; "x-data"; "tabindex"]
       /\ map snd pairs = map (fun kv => ensure_quoted Sample.django (snd kv)) attrs.
Proof.
  intro attrs. split; [reflexivity |].
  apply (attrs_string_reparses_to_its_keys Sample.django attrs).
  repeat constructor.
Defined.

(** * Further properties of the module *)

(** ** The tag function and its tokens *)

Lemma dict_set_keeps_keys_unique {V : Type} (d : list (string * V)) k v :
  NoDup (dict_keys d) -> NoDup (dict_keys (dict_set d k v)).
Proof.
  unfold dict_keys. induction d as [| [a b] d IH]; cbn; intros H.
  - constructor; [intros [] | constructor].
  - inversion H as [| ? ? Hnotin Hd]; subst.
    destruct (String.eqb_spec a k) as [-> | Hak]; cbn.
    + constructor; assumption.
    + constructor; [| now apply IH].
      intros Hin. apply (dict_keys_set d k v a) in Hin.
      destruct Hin as [-> | Hin]; [now apply Hak | now apply Hnotin].
Qed.

Lemma fold_dict_set_keeps_keys_unique {X V : Type}
    (key_of : X -> string) (value_of : X -> V) (l : list X)
    (acc : list (string * V)) :
  NoDup (dict_keys acc) ->
  NoDup (dict_keys
           (fold_left (fun a x => dict_set a (key_of x) (value_of x)) l acc)).
Proof.
  revert acc. induction l as [| x l IH]; intros acc H; cbn; [exact H |].
  apply IH. now apply dict_set_keeps_keys_unique.
Qed.

Lemma split_once_at_first sep k v :
  PyStr.contains sep k = false ->
  split_once sep (k ++ String sep v) = Some (k, v).
Proof.
  induction k as [| c k IH]; cbn; intros H.
  - now rewrite Ascii.eqb_refl.
  - apply orb_false_iff in H. destruct H as [Hc Hk].
    rewrite Hc, (IH Hk). reflexivity.
Qed.

(** X2.  The attributes of a tag form a dict: no key occurs twice, a
    token that repeats a key replaces the value of the earlier token, and
    the other keys keep their values. *)
Theorem parse_kwargs_last_token_wins :
  forall (bits : list string) (bit : string),
    NoDup (dict_keys (parse_kwargs bits))
    /\ dict_get (parse_kwargs (bits ++ [bit])) (fst (parse_bit bit))
       = Some (snd (parse_bit bit))
    /\ (forall k, k <> fst (parse_bit bit) ->
                  dict_get (parse_kwargs (bits ++ [bit])) k
                  = dict_get (parse_kwargs bits) k).
Proof.
  intros bits bit. unfold parse_kwargs. split; [| split].
  - apply (fold_dict_set_keeps_keys_unique
             (fun b => fst (parse_bit b)) (fun b => snd (parse_bit b))).
    constructor.
  - rewrite fold_left_app. cbn. now rewrite dict_get_set, String.eqb_refl.
  - intros k Hk. rewrite fold_left_app. cbn. rewrite dict_get_set.
    destruct (String.eqb_spec (fst (parse_bit bit)) k); congruence.
Qed.

Lemma parse_kwargs_last_token_wins_witness :
  dict_get (parse_kwargs (["id=a"; "class=b"] ++ ["id=c"])) "id" = Some "c"
  /\ dict_get (parse_kwargs (["id=a"; "class=b"] ++ ["id=c"])) "class"
     = dict_get (parse_kwargs ["id=a"; "class=b"]) "class".
Proof.
  destruct (parse_kwargs_last_token_wins ["id=a"; "class=b"] "id=c")
    as (_ & last & others).
  split; [exact last |].
  apply others. discriminate.
Defined.

(** X3.  A token made of a key, one [=] and a value, neither of which
    has an [=], is parsed back into that key and that value. *)
Theorem parse_bit_of_key_and_value :
  forall key value : string,
    PyStr.contains "=" key = false ->
    PyStr.contains "=" value = false ->
    parse_bit (key ++ String "=" value) = (key, value).
Proof.
  intros key value Hk Hv.
  apply parse_bit_single_equals; [| exact Hv].
  now apply split_once_at_first.
Qed.

Lemma parse_bit_of_key_and_value_witness :
  parse_bit (":x-data" ++ String "=" "{open: false}") = (":x-data", "{open: false}").
Proof.
  apply parse_bit_of_key_and_value; reflexivity.
Defined.

(** X4.  A token without [=] that does not start with a colon is a flag:
    the tag gives it the empty value and [_build_attrs] makes it the
    boolean true, on every host and in every context. *)
Theorem bare_token_is_a_true_attribute :
  forall (h : Host) (tag path key bit : string) body (context : Context),
    PyStr.contains "=" bit = false ->
    PyStr.startswith ":" bit = false ->
    exists node,
      cotton_component [tag; path; key; bit] body = Ok node
      /\ kwargs node = [(bit, EmptyString)]
      /\ _build_attrs h node context = Ok [(bit, VBool true)].
Proof.
  intros h tag path key bit body context Heq Hcolon.
  eexists. split; [reflexivity |].
  unfold _build_attrs, parse_kwargs. cbn.
  rewrite (parse_bit_without_equals bit Heq). cbn.
  split; [reflexivity |]. now rewrite Hcolon.
Qed.

Lemma bare_token_is_a_true_attribute_witness :
  exists node,
    cotton_component ["cotton_component"; "button"; "k"; "disabled"]
                     (Sample.plain_body "Save") = Ok node
    /\ kwargs node = [("disabled", EmptyString)]
    /\ _build_attrs Sample.django node (Sample.context_of [])
       = Ok [("disabled", VBool true)].
Proof.
  apply bare_token_is_a_true_attribute; reflexivity.
Defined.

(** ** Quotes and static attributes *)

Lemma last_char_of_appended body (q : ascii) :
  PyStr.last_char (body ++ String q EmptyString) = Some q.
Proof.
  induction body as [| c body IH]; [reflexivity |].
  change (PyStr.last_char (String c (body ++ String q EmptyString)) = Some q).
  destruct (body ++ String q EmptyString) as [| c' rest] eqn:E.
  - destruct body; discriminate.
  - exact IH.
Qed.

Lemma drop_last_of_appended body (q : ascii) :
  PyStr.drop_last (body ++ String q EmptyString) = body.
Proof.
  induction body as [| c body IH]; [reflexivity |].
  change (PyStr.drop_last (String c (body ++ String q EmptyString))
          = String c body).
  destruct (body ++ String q EmptyString) as [| c' rest] eqn:E.
  - destruct body; discriminate.
  - change (String c (PyStr.drop_last (String c' rest)) = String c body).
    now rewrite IH.
Qed.

(** X5.  A value between two double quotes or two single quotes loses
    exactly that pair, whatever is between them (more quotes included). *)
Theorem strip_quotes_removes_the_pair :
  forall (q : ascii) (body : string),
    q = "034"%char \/ q = "'"%char ->
    strip_quotes (String q (body ++ String q EmptyString)) = body.
Proof.
  intros q body Hq. unfold strip_quotes, quoted_both_sides.
  change (PyStr.last_char (String q (body ++ String q EmptyString)))
    with (PyStr.last_char (String q EmptyString ++ body ++ String q EmptyString)).
  rewrite <- append_associative, last_char_of_appended.
  cbn [PyStr.first_char]. rewrite Ascii.eqb_refl.
  assert (Hquote : (Ascii.eqb q "034" || Ascii.eqb q "'") = true).
  { destruct Hq as [-> | ->]; reflexivity. }
  rewrite Hquote. cbn [andb].
  unfold PyStr.strip_ends. cbn [PyStr.tail].
  apply drop_last_of_appended.
Qed.

Lemma strip_quotes_removes_the_pair_witness :
  strip_quotes (String "'" ("it's" ++ String "'" EmptyString)) = "it's".
Proof.
  apply strip_quotes_removes_the_pair. right. reflexivity.
Defined.

(** X6.  Quotes are stripped only in pairs: a value whose first and last
    characters differ, or whose first character is no quote, stays as it
    is. *)
Theorem strip_quotes_keeps_unpaired_quotes :
  forall (a b : ascii) (rest : string),
    PyStr.last_char (String a rest) = Some b ->
    a <> b \/ (a <> "034"%char /\ a <> "'"%char) ->
    strip_quotes (String a rest) = String a rest.
Proof.
  intros a b rest Hlast H. unfold strip_quotes, quoted_both_sides.
  rewrite Hlast. cbn [PyStr.first_char].
  destruct H as [Hab | [Hd Hs]].
  - destruct (Ascii.eqb_spec a b); [contradiction | reflexivity].
  - destruct (Ascii.eqb_spec a "034"); [contradiction |].
    destruct (Ascii.eqb_spec a "'"); [contradiction |].
    now rewrite andb_false_r.
Qed.

Lemma strip_quotes_keeps_unpaired_quotes_witness :
  strip_quotes (String "034" "mixed'") = String "034" "mixed'"
  /\ strip_quotes "(a)(" = "(a)(".
Proof.
  split.
  - apply (strip_quotes_keeps_unpaired_quotes "034" "'" "mixed'");
      [reflexivity | left; discriminate].
  - apply (strip_quotes_keeps_unpaired_quotes "(" "(" "a)(");
      [reflexivity | right; split; discriminate].
Defined.

Lemma strip_quotes_empty_iff raw :
  strip_quotes raw = EmptyString <->
  raw = EmptyString
  \/ exists q : ascii,
       (q = "034"%char \/ q = "'"%char)
       /\ (raw = String q EmptyString \/ raw = String q (String q EmptyString)).
Proof.
  split.
  - destruct raw as [| a [| b [| c rest]]]; [auto | | |].
    + unfold strip_quotes, quoted_both_sides. cbn.
      rewrite Ascii.eqb_refl. cbn.
      destruct (Ascii.eqb_spec a "034") as [-> | Hd]; cbn.
      * intros _. right. exists "034"%char. auto.
      * destruct (Ascii.eqb_spec a "'") as [-> | Hs]; cbn; [| discriminate].
        intros _. right. exists "'"%char. auto.
    + unfold strip_quotes, quoted_both_sides. cbn.
      destruct (Ascii.eqb_spec a b) as [<- | Hab]; cbn; [| discriminate].
      destruct (Ascii.eqb_spec a "034") as [-> | Hd]; cbn.
      * intros _. right. exists "034"%char. auto.
      * destruct (Ascii.eqb_spec a "'") as [-> | Hs]; cbn; [| discriminate].
        intros _. right. exists "'"%char. auto.
    + unfold strip_quotes.
      destruct (quoted_both_sides (String a (String b (String c rest))));
        [| discriminate].
      unfold PyStr.strip_ends. cbn [PyStr.tail].
      change (PyStr.drop_last (String b (String c rest)))
        with (String b (PyStr.drop_last (String c rest))).
      discriminate.
  - intros [-> | (q & Hq & [-> | ->])]; [reflexivity | |];
      destruct Hq as [-> | ->]; reflexivity.
Qed.

(** X7.  A static attribute is the boolean true exactly when its raw
    value is empty, a lone quote, or an empty pair of quotes; with any
    other raw value it is the string that is left once a pair of quotes
    is stripped, and that string is not empty. *)
Theorem static_attribute_value :
  forall (h : Host) (key raw : string) (context : Context),
    PyStr.startswith ":" key = false ->
    (_build_attrs_from h [(key, raw)] context [] = Ok [(key, VBool true)]
     <-> raw = EmptyString
         \/ exists q : ascii,
              (q = "034"%char \/ q = "'"%char)
              /\ (raw = String q EmptyString
                  \/ raw = String q (String q EmptyString)))
    /\ (strip_quotes raw <> EmptyString ->
        _build_attrs_from h [(key, raw)] context []
          = Ok [(key, VStr (strip_quotes raw))]).
Proof.
  intros h key raw context Hkey. cbn [_build_attrs_from]. rewrite Hkey.
  destruct (String.eqb_spec (strip_quotes raw) EmptyString) as [E | E]; cbn.
  - split; [| contradiction].
    split; [intros _; now apply strip_quotes_empty_iff | reflexivity].
  - split; [| reflexivity].
    split; [discriminate |].
    intros H. apply strip_quotes_empty_iff in H. contradiction.
Qed.

Lemma static_attribute_value_witness :
  _build_attrs_from Sample.django [("alt", dquote ++ dquote)]
                    (Sample.context_of []) []
    = Ok [("alt", VBool true)]
  /\ _build_attrs_from Sample.django [("alt", dquote ++ "logo" ++ dquote)]
                       (Sample.context_of []) []
     = Ok [("alt", VStr "logo")].
Proof.
  split.
  - apply (proj1 (static_attribute_value Sample.django "alt" (dquote ++ dquote)
                    (Sample.context_of []) eq_refl)).
    right. exists "034"%char. split; [left; reflexivity | right; reflexivity].
  - apply (proj2 (static_attribute_value Sample.django "alt"
                    (dquote ++ "logo" ++ dquote) (Sample.context_of []) eq_refl)).
    discriminate.
Defined.

(** ** The attributes of an invocation *)

(** X8.  Static attributes need no collaborator: when no key starts with
    a colon, [_build_attrs] returns, and it returns the same attributes
    on every host and in every context. *)
Theorem static_attributes_never_raise :
  forall (h h' : Host) (items : list (string * string))
         (context context' : Context) (attrs0 : Dict),
    Forall (fun kv => PyStr.startswith ":" (fst kv) = false) items ->
    exists attrs,
      _build_attrs_from h items context attrs0 = Ok attrs
      /\ _build_attrs_from h' items context' attrs0 = Ok attrs.
Proof.
  intros h h' items context context'.
  induction items as [| [key value] items IH]; intros attrs0 H.
  - exists attrs0. split; reflexivity.
  - inversion H as [| ? ? Hkey Hrest]; subst. cbn in Hkey.
    cbn [_build_attrs_from]. rewrite Hkey.
    destruct (String.eqb (strip_quotes value) EmptyString); now apply IH.
Qed.

Lemma static_attributes_never_raise_witness :
  exists attrs,
    _build_attrs_from Sample.django
      [("class", "btn"); ("disabled", EmptyString)] (Sample.context_of []) []
      = Ok attrs
    /\ _build_attrs_from (Django.host (Some "ui"))
         [("class", "btn"); ("disabled", EmptyString)]
         (Sample.context_of [("class", VInt 1)]) []
       = Ok attrs.
Proof.
  apply static_attributes_never_raise. repeat constructor.
Defined.

(** X9.  [_build_attrs] raises only what the resolution of one of its
    dynamic attributes raises. *)
Theorem build_attrs_raises_from_a_dynamic_attribute :
  forall (h : Host) (items : list (string * string)) (context : Context)
         (attrs0 : Dict) (e : Exn),
    _build_attrs_from h items context attrs0 = Raise e ->
    exists key value,
      In (key, value) items
      /\ PyStr.startswith ":" key = true
      /\ _process_dynamic_attribute h (strip_quotes value) context = Raise e.
Proof.
  intros h items context.
  induction items as [| [key value] items IH]; intros attrs0 e H;
    [discriminate |].
  cbn [_build_attrs_from] in H.
  assert (later : forall attrs1,
             _build_attrs_from h items context attrs1 = Raise e ->
             exists key0 value0,
               In (key0, value0) ((key, value) :: items)
               /\ PyStr.startswith ":" key0 = true
               /\ _process_dynamic_attribute h (strip_quotes value0) context
                  = Raise e).
  { intros attrs1 H1. destruct (IH _ _ H1) as (k & v & Hin & Hk & Hp).
    exists k, v. repeat split; [now right | exact Hk | exact Hp]. }
  destruct (PyStr.startswith ":" key) eqn:Hkey.
  - destruct (_process_dynamic_attribute h (strip_quotes value) context)
      as [v | e'] eqn:Hp; cbn in H.
    + now apply (later _ H).
    + injection H as ->. exists key, value.
      repeat split; [now left | exact Hkey | exact Hp].
  - destruct (String.eqb (strip_quotes value) EmptyString);
      now apply (later _ H).
Qed.

Lemma build_attrs_raises_from_a_dynamic_attribute_witness :
  exists key value,
    In (key, value) [("id", "top"); (":on", EmptyString)]
    /\ PyStr.startswith ":" key = true
    /\ _process_dynamic_attribute Sample.django (strip_quotes value)
         (Sample.context_of []) = Raise IndexError.
Proof.
  apply (build_attrs_raises_from_a_dynamic_attribute Sample.django
           [("id", "top"); (":on", EmptyString)] (Sample.context_of []) []).
  reflexivity.
Defined.

Lemma build_attrs_from_keeps_keys_unique h items context attrs0 attrs :
  _build_attrs_from h items context attrs0 = Ok attrs ->
  NoDup (dict_keys attrs0) -> NoDup (dict_keys attrs).
Proof.
  revert attrs0. induction items as [| [key value] items IH]; intros attrs0; cbn.
  - now intros [= <-].
  - intros H Hnodup.
    destruct (PyStr.startswith ":" key).
    + destruct (_process_dynamic_attribute h (strip_quotes value) context)
        as [v | e]; cbn in H; [| discriminate].
      apply (IH _ H). now apply dict_set_keeps_keys_unique.
    + destruct (String.eqb (strip_quotes value) EmptyString);
        apply (IH _ H); now apply dict_set_keeps_keys_unique.
Qed.





(** X11.  When no key of the tag starts with two colons, no key of the
    resolved attributes starts with a colon. *)
Theorem single_colon_keys_lose_their_marker :
  forall (h : Host) (self : CottonComponentNode) (context : Context)
         (attrs : Dict),
    (forall name, ~ In (String ":" (String ":" name)) (dict_keys (kwargs self))) ->
    _build_attrs h self context = Ok attrs ->
    forall k, In k (dict_keys attrs) -> has_dynamic_marker k = false.
Proof.
  intros h self context attrs Hkeys H k Hin.
  destruct (build_attrs_from_keys _ _ _ _ _ H k Hin) as [[] | [[_ Hm] | Hk]];
    [exact Hm |].
  destruct (has_dynamic_marker k) eqn:Hm; [| reflexivity].
  destruct k as [| c k]; [discriminate |].
  cbn in Hm. apply Ascii.eqb_eq in Hm. subst c.
  now apply Hkeys in Hk.
Qed.

Lemma single_colon_keys_lose_their_marker_witness :
  let self := Sample.node "card" "k" [(":count", "3"); ("x:y", "z")] in
  _build_attrs Sample.django self (Sample.context_of [])
    = Ok [("count", VInt 3); ("x:y", VStr "z")]
  /\ has_dynamic_marker "count" = false.
Proof.
  intro self. split; [reflexivity |].
  apply (single_colon_keys_lose_their_marker Sample.django self
           (Sample.context_of []) [("count", VInt 3); ("x:y", VStr "z")]).
  - intros name [H | [H | []]]; discriminate.
  - reflexivity.
  - left. reflexivity.
Defined.

(** ** The cascade of a dynamic attribute *)


(** X13.  An exception that leaves [_process_dynamic_attribute] comes
    from one of its three collaborators and is of a class that the call
    around that collaborator does not catch. *)
Theorem cascade_raises_only_uncaught_exceptions :
  forall (h : Host) (value : string) (context : Context) (e : Exn),
    _process_dynamic_attribute h value context = Raise e ->
    (variable_resolve h value context = Raise e
     /\ caught [VariableDoesNotExist] e = false)
    \/ (value <> EmptyString
        /\ template_render h value context = Raise e
        /\ caught [ValueError; SyntaxError] e = false)
    \/ (value <> EmptyString
        /\ exists s, literal_eval h s = Raise e
                     /\ caught [ValueError; SyntaxError] e = false).
Proof.
  intros h value context e. unfold _process_dynamic_attribute.
  destruct (variable_resolve h value context) as [v | e0] eqn:Hv;
    [discriminate |].
  destruct (caught [VariableDoesNotExist] e0) eqn:Hc.
  - destruct (String.eqb_spec value EmptyString) as [-> | Hne]; [discriminate |].
    assert (L : forall s,
               try_except (literal_eval h s) [ValueError; SyntaxError]
                          (Ok (VStr s)) = Raise e ->
               literal_eval h s = Raise e
               /\ caught [ValueError; SyntaxError] e = false).
    { intros s. unfold try_except.
      destruct (literal_eval h s) as [v | e1]; [discriminate |].
      destruct (caught [ValueError; SyntaxError] e1) eqn:H1; [discriminate |].
      intros [= <-]. auto. }
    unfold _parse_template_string, try_except.
    destruct (template_render h value context) as [s | e1] eqn:Ht.
    + cbn [bind]. intros H. right. right. split; [exact Hne |].
      exists s. now apply L.
    + destruct (caught [ValueError; SyntaxError] e1) eqn:H1.
      * cbn [bind]. intros H. right. right. split; [exact Hne |].
        exists value. now apply L.
      * cbn [bind]. intros [= <-]. right. left. auto.
  - intros [= <-]. left. auto.
Qed.

Lemma cascade_raises_only_uncaught_exceptions_witness :
  let context := Sample.context_of [] in
  (variable_resolve Sample.django "_private" context = Raise TemplateSyntaxError
   /\ caught [VariableDoesNotExist] TemplateSyntaxError = false)
  \/ ("_private" <> EmptyString
      /\ template_render Sample.django "_private" context
         = Raise TemplateSyntaxError
      /\ caught [ValueError; SyntaxError] TemplateSyntaxError = false)
  \/ ("_private" <> EmptyString
      /\ exists s, literal_eval Sample.django s = Raise TemplateSyntaxError
                   /\ caught [ValueError; SyntaxError] TemplateSyntaxError = false).
Proof.
  intro context.
  apply (cascade_raises_only_uncaught_exceptions Sample.django "_private" context).
  reflexivity.
Defined.

(** X14.  When, for the string at hand, the variable resolution fails
    only with [VariableDoesNotExist], the template rendering only with a
    [ValueError] or a [SyntaxError], and the literal parser, on the
    rendered text or on the raw string, only with one of these two, the
    cascade ends in a value, and that value is the variable of the
    context, the boolean true of an empty string, a parsed literal, or a
    string: the rendered text or the raw string. *)
Theorem cascade_ends_in_a_value :
  forall (h : Host) (value : string) (context : Context),
    (forall e, variable_resolve h value context = Raise e ->
               e = VariableDoesNotExist) ->
    (forall e, template_render h value context = Raise e ->
               caught [ValueError; SyntaxError] e = true) ->
    (forall s e, template_render h value context = Ok s \/ s = value ->
                 literal_eval h s = Raise e ->
                 caught [ValueError; SyntaxError] e = true) ->
    exists v,
      _process_dynamic_attribute h value context = Ok v
      /\ (variable_resolve h value context = Ok v
          \/ (value = EmptyString /\ v = VBool true)
          \/ (exists s, literal_eval h s = Ok v)
          \/ (exists s, v = VStr s
                        /\ (template_render h value context = Ok s \/ s = value))).
Proof.
  intros h value context Hv Ht Hl. unfold _process_dynamic_attribute.
  destruct (variable_resolve h value context) as [v | e] eqn:E.
  - exists v. auto.
  - rewrite (Hv e eq_refl).
    change (caught [VariableDoesNotExist] VariableDoesNotExist) with true.
    cbv iota.
    destruct (String.eqb_spec value EmptyString) as [-> | Hne].
    + exists (VBool true). auto.
    + assert (L : forall s,
                 template_render h value context = Ok s \/ s = value ->
                 exists v,
                   try_except (literal_eval h s) [ValueError; SyntaxError]
                              (Ok (VStr s)) = Ok v
                   /\ (literal_eval h s = Ok v \/ v = VStr s)).
      { intros s Hs. destruct (literal_eval h s) as [v | e'] eqn:El.
        - exists v. auto.
        - rewrite try_except_caught by (eapply Hl; eassumption).
          exists (VStr s). auto. }
      unfold _parse_template_string.
      destruct (template_render h value context) as [s | e'] eqn:Et.
      * rewrite try_except_ok. cbn [bind].
        destruct (L s (or_introl eq_refl)) as (v & Hok & [Hlit | ->]);
          eexists; split;
          try exact Hok; [right; right; left; now exists s |].
        right. right. right. exists s. auto.
      * rewrite try_except_caught by (apply Ht; reflexivity). cbn [bind].
        destruct (L value (or_intror eq_refl)) as (v & Hok & [Hlit | ->]);
          eexists; split;
          try exact Hok; [right; right; left; now exists value |].
        right. right. right. exists value. auto.
Qed.


Lemma cascade_ends_in_a_value_witness :
  let context := Sample.context_of [("y", VStr "val")] in
  exists v,
    _process_dynamic_attribute Sample.django "prefix-{{ y }}" context = Ok v
    /\ (variable_resolve Sample.django "prefix-{{ y }}" context = Ok v
        \/ ("prefix-{{ y }}" = EmptyString /\ v = VBool true)
        \/ (exists s, literal_eval Sample.django s = Ok v)
        \/ (exists s, v = VStr s
                      /\ (template_render Sample.django "prefix-{{ y }}" context
                          = Ok s
                          \/ s = "prefix-{{ y }}"))).
Proof.
  intro context.
  apply (cascade_ends_in_a_value Sample.django "prefix-{{ y }}" context).
  - intros e H. vm_compute in H. now injection H as <-.
  - intros e H. vm_compute in H. discriminate.
  - intros s e [Hs | Hs] H.
    + vm_compute in Hs. injection Hs as <-.
      vm_compute in H. now injection H as <-.
    + subst s. vm_compute in H. now injection H as <-.
Defined.

(** ** The template path and the loader *)

Lemma dict_get_of_absent_key {V : Type} (d : list (string * V)) k :
  ~ In k (dict_keys d) -> dict_get d k = None.
Proof.
  unfold dict_keys. induction d as [| [a b] d IH]; cbn; [reflexivity |].
  intros H. destruct (String.eqb_spec a k) as [-> | _].
  - exfalso. apply H. now left.
  - apply IH. intros Hin. apply H. now right.
Qed.

Lemma callable_attrs_is_attribute attrs :
  NoDup (dict_keys attrs) ->
  dict_get (callable_attrs attrs) "is" = dict_get attrs "is".
Proof.
  unfold callable_attrs.
  assert (G : forall acc : Dict,
             NoDup (dict_keys attrs) ->
             dict_get
               (fold_left
                  (fun acc kv =>
                     dict_set acc (PyStr.replace "-" "_" (fst kv)) (snd kv))
                  attrs acc) "is"
             = match dict_get attrs "is" with
               | Some v => Some v
               | None => dict_get acc "is"
               end).
  { induction attrs as [| [k v] attrs IH]; intros acc Hnodup; cbn.
    - reflexivity.
    - inversion Hnodup as [| ? ? Hnotin Hrest]; subst.
      rewrite (IH _ Hrest), dict_get_set.
      destruct (String.eqb_spec k "is") as [-> | Hk].
      + cbn. now rewrite (dict_get_of_absent_key _ _ Hnotin).
      + destruct (String.eqb_spec (PyStr.replace "-" "_" k) "is") as [E | _];
          [now apply callable_key_is in E | reflexivity]. }
  intros H. rewrite (G [] H). now destruct (dict_get attrs "is").
Qed.

Lemma expression_attrs_from_keeps_keys_unique h names slots local_ctx attrs attrs' :
  expression_attrs_from h names slots local_ctx attrs = Ok attrs' ->
  NoDup (dict_keys attrs) -> NoDup (dict_keys attrs').
Proof.
  revert attrs. induction names as [| name names IH]; intros attrs; cbn.
  - now intros [= <-].
  - destruct (dict_index slots name) as [raw | e]; cbn; [| discriminate].
    destruct (match raw with
              | VStr value => _process_dynamic_attribute h value local_ctx
              | _ => Raise TypeError
              end) as [evaluated | e]; cbn; [| discriminate].
    destruct name; try discriminate.
    intros H Hnodup. apply (IH _ H). now apply dict_set_keeps_keys_unique.
Qed.

Lemma expression_attrs_keeps_keys_unique h slots local_ctx attrs attrs' :
  expression_attrs h slots local_ctx attrs = Ok attrs' ->
  NoDup (dict_keys attrs) -> NoDup (dict_keys attrs').
Proof.
  unfold expression_attrs.
  destruct (dict_get slots "ctn_template_expression_attrs") as [names |].
  - destruct (py_iter names) as [l | e]; cbn; [| discriminate].
    apply expression_attrs_from_keeps_keys_unique.
  - now intros [= <-].
Qed.

Lemma render_attrs_dict_keys_unique h self context locals context' :
  render_locals h self context = (Ok locals, context') ->
  NoDup (dict_keys (attrs_dict locals)).
Proof.
  intros H.
  destruct (render_locals_ok _ _ _ _ _ H)
    as (attrs0 & slot & Hbuild & _ & _ & _ & Hexpr & _).
  apply (expression_attrs_keeps_keys_unique _ _ _ _ _ Hexpr).
  apply (build_attrs_from_keeps_keys_unique _ _ _ _ _ Hbuild). constructor.
Qed.

(** X15.  The part of the template path that comes from the component
    identifier has as many characters as the identifier and holds neither
    a dot nor a dash. *)
Theorem component_tpl_path_has_no_dot_or_dash :
  forall ident : string,
    String.length (component_tpl_path ident) = String.length ident
    /\ PyStr.contains "." (component_tpl_path ident) = false
    /\ PyStr.contains "-" (component_tpl_path ident) = false.
Proof.
  intros ident. unfold component_tpl_path.
  induction ident as [| c ident (Hlen & Hdot & Hdash)]; cbn; [auto |].
  rewrite Hlen, Hdot, Hdash. split; [reflexivity |].
  destruct (Ascii.eqb_spec c ".") as [-> | Hc]; cbn; [auto |].
  destruct (Ascii.eqb_spec c "-") as [-> | Hc']; cbn; [auto |].
  destruct (Ascii.eqb_spec c "."); [contradiction |].
  destruct (Ascii.eqb_spec c "-"); [contradiction | auto].
Qed.

(** X16.  When [render] reaches the template path, it asks the loader
    for exactly one template with the local context it has built: for a
    declared path, [base_dir/path.html] whatever the attributes are; under
    the sentinel path [component], the path made from the string of the
    [is] attribute.  When that attribute is no string, [render] raises
    [AttributeError] without asking the loader. *)
Theorem render_asks_the_loader_for_the_path :
  forall (h : Host) (self : CottonComponentNode) (context context' : Context)
         (locals : Locals),
    render_locals h self context = (Ok locals, context') ->
    (component_path self <> "component" ->
     render h self context =
       (get_template_render h
          (VStr (base_dir h ++ "/" ++ component_tpl_path (component_path self)
                 ++ ".html"))
          (local_ctx locals),
        context'))
    /\ (forall v,
          component_path self = "component" ->
          dict_get (attrs_dict locals) "is" = Some v ->
          render h self context =
            (match v with
             | VStr ident =>
                 get_template_render h
                   (VStr (base_dir h ++ "/" ++ component_tpl_path ident ++ ".html"))
                   (local_ctx locals)
             | _ => Raise AttributeError
             end,
             context')).
Proof.
  intros h self context context' locals H. unfold render. rewrite H.
  unfold _generate_component_template_path. split.
  - intros Hpath.
    destruct (String.eqb_spec (component_path self) "component");
      [contradiction | reflexivity].
  - intros v Hpath His. rewrite Hpath. cbn [String.eqb Ascii.eqb Bool.eqb].
    rewrite (callable_attrs_is_attribute _
               (render_attrs_dict_keys_unique _ _ _ _ _ H)), His.
    destruct v; reflexivity.
Qed.

Lemma render_asks_the_loader_for_the_path_witness :
  let context := Sample.context_of [("kind", VStr "forms.text-input")] in
  (exists locals context',
      render_locals Sample.django (Sample.node "nav-bar" "k1" [("is", "x")])
                    context = (Ok locals, context')
      /\ render Sample.django (Sample.node "nav-bar" "k1" [("is", "x")]) context
         = (get_template_render Sample.django (VStr "cotton/nav_bar.html")
                                (local_ctx locals),
            context'))
  /\ (exists locals context',
        render_locals Sample.django
          (Sample.node "component" "k2" [(":is", "kind")]) context
          = (Ok locals, context')
        /\ render Sample.django (Sample.node "component" "k2" [(":is", "kind")])
                  context
           = (get_template_render Sample.django
                (VStr "cotton/forms/text_input.html") (local_ctx locals),
              context'))
  /\ fst (render Sample.django (Sample.node "component" "k3" [("is", EmptyString)])
                 context)
     = Raise AttributeError.
Proof.
  intro context. split; [| split].
  - eexists _, _. split; [reflexivity |].
    apply (proj1 (render_asks_the_loader_for_the_path Sample.django
                    (Sample.node "nav-bar" "k1" [("is", "x")]) context _ _
                    eq_refl)).
    discriminate.
  - eexists _, _. split; [reflexivity |].
    apply (proj2 (render_asks_the_loader_for_the_path Sample.django
                    (Sample.node "component" "k2" [(":is", "kind")]) context _ _
                    eq_refl) (VStr "forms.text-input") eq_refl eq_refl).
  - destruct (render_asks_the_loader_for_the_path Sample.django
                (Sample.node "component" "k3" [("is", EmptyString)]) context _ _
                eq_refl) as [_ dynamic].
    rewrite (dynamic (VBool true) eq_refl eq_refl). reflexivity.
Defined.

(** ** What a render leaves in the slot store *)

Lemma named_slots_of_other_key store key other :
  other <> key ->
  named_slots_for (reset_slots store key) other = named_slots_for store other.
Proof.
  intros H. destruct store as [all |]; cbn; [| reflexivity].
  rewrite dict_get_set.
  destruct (String.eqb_spec key other); [congruence | reflexivity].
Qed.

(** X17.  A render that reaches the template path changes nothing in
    the slot store but the slots of its own key: the slots stored for
    every other component key are as the body left them. *)
Theorem render_resets_only_its_own_slots :
  forall (h : Host) (self : CottonComponentNode) (context context' : Context)
         (locals : Locals) (other : string),
    render_locals h self context = (Ok locals, context') ->
    other <> component_key self ->
    named_slots_for (ctx_named_slots context') other
    = named_slots_for (ctx_named_slots (snd (nodelist self context))) other.
Proof.
  intros h self context context' locals other H Hother.
  destruct (render_locals_ok _ _ _ _ _ H)
    as (attrs0 & slot & _ & _ & -> & _).
  now apply named_slots_of_other_key.
Qed.

Lemma render_resets_only_its_own_slots_witness :
  let self := Sample.node "card" "k1" [] in
  let context :=
    {| ctx_vars := [("user", VStr "ann")];
       ctx_named_slots :=
         Some [("k1", [("title", VStr "Mine")]); ("k2", [("title", VStr "Other")])] |} in
  exists locals context',
    render_locals Sample.django self context = (Ok locals, context')
    /\ named_slots_for (ctx_named_slots context') "k2" = [("title", VStr "Other")]
    /\ named_slots_for (ctx_named_slots context') "k1" = [].
Proof.
  intros self context. eexists _, _. split; [reflexivity |].
  split; [| reflexivity].
  rewrite (render_resets_only_its_own_slots Sample.django self context _ _ "k2"
             eq_refl); [reflexivity | discriminate].
Defined.

(** X18.  A render that raises before it reaches the template path does
    not reset the slots.  When the attributes of the tag fail, the body is
    not rendered and the context is untouched; when the body or an
    attribute moved over from the slots fails, the slot store is as the
    body left it, the slots of the component's own key included. *)
Theorem raising_render_does_not_reset_the_slots :
  forall (h : Host) (self : CottonComponentNode) (context context' : Context)
         (e : Exn),
    render_locals h self context = (Raise e, context') ->
    (_build_attrs h self context = Raise e /\ context' = context)
    \/ (exists attrs,
          _build_attrs h self context = Ok attrs
          /\ ctx_named_slots context'
             = ctx_named_slots (snd (nodelist self context))).
Proof.
  intros h self context context' e. unfold render_locals.
  destruct (_build_attrs h self context) as [attrs | e0].
  - destruct (nodelist self context) as [body after]. cbn [snd].
    destruct body as [slot | e1].
    + destruct (expression_attrs h _ _ attrs) as [attrs' | e2];
        [discriminate |].
      intros [= <- <-]. right. exists attrs. auto.
    + intros [= <- <-]. right. exists attrs. auto.
  - intros [= <- <-]. left. auto.
Qed.

Lemma raising_render_does_not_reset_the_slots_witness :
  let self := Sample.node "card" "k1" [("id", "top")] in
  let context :=
    {| ctx_vars := [];
       ctx_named_slots :=
         Some [("k1", [("ctn_template_expression_attrs", VList [VStr ":open"]);
                       (":open", VStr "{% bogus %}");
                       ("title", VStr "Stale")])] |} in
  fst (render_locals Sample.django self context) = Raise TemplateSyntaxError
  /\ named_slots_for (ctx_named_slots (snd (render_locals Sample.django self context)))
                     "k1"
     = named_slots_for (ctx_named_slots context) "k1".
Proof.
  intros self context.
  split; [reflexivity |].
  destruct (raising_render_does_not_reset_the_slots Sample.django self context
              (snd (render_locals Sample.django self context))
              TemplateSyntaxError eq_refl)
    as [[Hbuild _] | (attrs & _ & Hstore)].
  - discriminate.
  - rewrite Hstore. reflexivity.
Defined.

(** ** What the sub-template sees *)

Lemma dict_get_update_present {V : Type} (other d : list (string * V)) n v :
  NoDup (dict_keys other) ->
  dict_get other n = Some v ->
  dict_get (dict_update d other) n = Some v.
Proof.
  revert d. induction other as [| [k v0] other IH]; intros d Hnodup H;
    [discriminate |].
  inversion Hnodup as [| ? ? Hnotin Hrest]; subst. cbn in H.
  change (dict_update d ((k, v0) :: other))
    with (dict_update (dict_set d k v0) other).
  destruct (String.eqb_spec k n) as [-> | Hk].
  - injection H as ->.
    rewrite (dict_get_update_other _ _ _ (dict_get_of_absent_key _ _ Hnotin)).
    now rewrite dict_get_set, String.eqb_refl.
  - now apply IH.
Qed.

Lemma callable_attrs_keys_unique attrs :
  NoDup (dict_keys (callable_attrs attrs)).
Proof.
  unfold callable_attrs.
  apply (fold_dict_set_keeps_keys_unique
           (fun kv : string * PyVal => PyStr.replace "-" "_" (fst kv))
           (fun kv => snd kv)).
  constructor.
Qed.

(** The variables of the local context, from the inside out. *)
Lemma render_local_vars h self context locals context' :
  render_locals h self context = (Ok locals, context') ->
  exists slot,
    fst (nodelist self context) = Ok slot
    /\ ctx_vars (local_ctx locals) =
         dict_update
           (dict_set
              (dict_set
                 (dict_update (dict_set (ctx_vars context) "slot" (VStr slot))
                              (named_slots locals))
                 "attrs" (VStr (attrs_string h (attrs_dict locals))))
              "attrs_dict" (VDict (attrs_dict locals)))
           (callable_attrs (attrs_dict locals)).
Proof.
  intros H.
  destruct (render_locals_ok _ _ _ _ _ H)
    as (attrs0 & slot & _ & Hslot & _ & Hnamed & _ & Hlocal).
  exists slot. split; [exact Hslot |].
  rewrite Hlocal, Hnamed, sees_store_vars, local_update_vars.
  cbn [local_set ctx_vars]. rewrite local_update_vars.
  cbn [local_set ctx_vars]. now rewrite sees_store_vars.
Qed.

(** X19.  Every resolved attribute can be read in the sub-template under
    its name with dashes turned to underscores, and it comes before
    everything else of that name: a variable of the enclosing context, the
    default slot, a named slot, [attrs] and [attrs_dict]. *)
Theorem attributes_shadow_the_rest_of_the_local_context :
  forall (h : Host) (self : CottonComponentNode) (context context' : Context)
         (locals : Locals) (name : string) (v : PyVal),
    render_locals h self context = (Ok locals, context') ->
    dict_get (callable_attrs (attrs_dict locals)) name = Some v ->
    dict_get (ctx_vars (local_ctx locals)) name = Some v.
Proof.
  intros h self context context' locals name v H Hattr.
  destruct (render_local_vars _ _ _ _ _ H) as (slot & _ & ->).
  apply dict_get_update_present; [apply callable_attrs_keys_unique | exact Hattr].
Qed.

Lemma attributes_shadow_the_rest_of_the_local_context_witness :
  let self := Sample.node "card" "k" [("x-id", "7"); ("slot", "mine")] in
  let context := Sample.context_of [("x_id", VStr "outer")] in
  exists locals context',
    render_locals Sample.django self context = (Ok locals, context')
    /\ dict_get (ctx_vars (local_ctx locals)) "x_id" = Some (VStr "7")
    /\ dict_get (ctx_vars (local_ctx locals)) "slot" = Some (VStr "mine").
Proof.
  intros self context. eexists _, _. split; [reflexivity |].
  split.
  - apply (attributes_shadow_the_rest_of_the_local_context Sample.django self
             context _ _ "x_id" (VStr "7") eq_refl).
    reflexivity.
  - apply (attributes_shadow_the_rest_of_the_local_context Sample.django self
             context _ _ "slot" (VStr "mine") eq_refl).
    reflexivity.
Defined.

(** X20.  Unless an attribute takes the name, the sub-template finds the
    attrs string under [attrs] and the resolved attributes under
    [attrs_dict], with their keys as written in the tag (dashes kept) and
    no key twice. *)
Theorem attrs_and_attrs_dict_are_exposed :
  forall (h : Host) (self : CottonComponentNode) (context context' : Context)
         (locals : Locals),
    render_locals h self context = (Ok locals, context') ->
    NoDup (dict_keys (attrs_dict locals))
    /\ (dict_get (callable_attrs (attrs_dict locals)) "attrs" = None ->
        dict_get (ctx_vars (local_ctx locals)) "attrs"
        = Some (VStr (attrs_string h (attrs_dict locals))))
    /\ (dict_get (callable_attrs (attrs_dict locals)) "attrs_dict" = None ->
        dict_get (ctx_vars (local_ctx locals)) "attrs_dict"
        = Some (VDict (attrs_dict locals))).
Proof.
  intros h self context context' locals H.
  split; [apply (render_attrs_dict_keys_unique _ _ _ _ _ H) |].
  destruct (render_local_vars _ _ _ _ _ H) as (slot & _ & ->).
  split; intros Hfree; rewrite (dict_get_update_other _ _ _ Hfree);
    rewrite !dict_get_set; reflexivity.
Qed.

Lemma attrs_and_attrs_dict_are_exposed_witness :
  let self := Sample.node "card" "k" [("x-id", "7"); ("wide", EmptyString)] in
  let context := Sample.context_of [] in
  exists locals context',
    render_locals Sample.django self context = (Ok locals, context')
    /\ dict_get (ctx_vars (local_ctx locals)) "attrs"
       = Some (VStr ("x-id=" ++ dquote ++ "7" ++ dquote
                     ++ " wide=" ++ dquote ++ "True" ++ dquote))
    /\ dict_get (ctx_vars (local_ctx locals)) "attrs_dict"
       = Some (VDict [("x-id", VStr "7"); ("wide", VBool true)]).
Proof.
  intros self context. eexists _, _. split; [reflexivity |].
  destruct (attrs_and_attrs_dict_are_exposed Sample.django self context _ _
              eq_refl) as (_ & Hattrs & Hdict).
  split; [now rewrite Hattrs | now rewrite Hdict].
Defined.



(** ** The names of the attributes in the sub-template *)

Lemma replace_without_dash k :
  PyStr.contains "-" k = false -> PyStr.replace "-" "_" k = k.
Proof.
  induction k as [| c k IH]; cbn; [reflexivity |].
  intros H. apply orb_false_iff in H. destruct H as [Hc Hk].
  now rewrite Hc, (IH Hk).
Qed.

Lemma dict_set_of_new_key {V : Type} (d : list (string * V)) k v :
  ~ In k (dict_keys d) -> dict_set d k v = (d ++ [(k, v)])%list.
Proof.
  unfold dict_keys. induction d as [| [a b] d IH]; cbn; [reflexivity |].
  intros H. destruct (String.eqb_spec a k) as [-> | _].
  - exfalso. apply H. now left.
  - rewrite IH; [reflexivity |]. intros Hin. apply H. now right.
Qed.

Lemma fold_dict_set_keys {X V : Type}
    (key_of : X -> string) (value_of : X -> V) (l : list X)
    (acc : list (string * V)) k :
  In k (dict_keys
          (fold_left (fun a x => dict_set a (key_of x) (value_of x)) l acc))
  <-> In k (dict_keys acc) \/ In k (map key_of l).
Proof.
  revert acc. induction l as [| x l IH]; intros acc; cbn [fold_left map In];
    [tauto |].
  split.
  - intros H. apply IH in H. destruct H as [H | H]; [| auto].
    apply dict_keys_set in H. destruct H as [-> | H]; auto.
  - intros H. apply IH.
    destruct H as [H | [<- | H]]; [| | auto]; left; apply dict_keys_set; auto.
Qed.

(** X22.  When no attribute has a dash in its name, the attributes are
    exposed to the sub-template exactly as they are in [attrs_dict]: same
    names, same values, same order. *)
Theorem dashless_attributes_are_exposed_unchanged :
  forall (h : Host) (self : CottonComponentNode) (context context' : Context)
         (locals : Locals),
    render_locals h self context = (Ok locals, context') ->
    (forall k, In k (dict_keys (attrs_dict locals)) ->
               PyStr.contains "-" k = false) ->
    callable_attrs (attrs_dict locals) = attrs_dict locals.
Proof.
  intros h self context context' locals H.
  pose proof (render_attrs_dict_keys_unique _ _ _ _ _ H) as Hnodup.
  revert Hnodup. generalize (attrs_dict locals) as attrs. clear.
  intros attrs Hnodup Hdash. unfold callable_attrs.
  assert (G : forall acc : Dict,
             (forall k, In k (dict_keys attrs) -> ~ In k (dict_keys acc)) ->
             fold_left
               (fun acc kv =>
                  dict_set acc (PyStr.replace "-" "_" (fst kv)) (snd kv))
               attrs acc
             = (acc ++ attrs)%list).
  { revert Hnodup Hdash. induction attrs as [| [k v] attrs IH];
      intros Hnodup Hdash acc Hfresh; cbn.
    - now rewrite app_nil_r.
    - inversion Hnodup as [| ? ? Hnotin Hrest]; subst.
      rewrite (replace_without_dash k) by (apply Hdash; now left).
      rewrite dict_set_of_new_key by (apply Hfresh; now left).
      rewrite IH.
      + now rewrite <- app_assoc.
      + exact Hrest.
      + intros k' Hin. apply Hdash. now right.
      + intros k' Hin Hacc. unfold dict_keys in Hacc.
        rewrite map_app in Hacc. apply in_app_or in Hacc.
        destruct Hacc as [Hacc | [<- | []]].
        * apply (Hfresh k'); [now right | exact Hacc].
        * now apply Hnotin. }
  apply (G []). intros k _ [].
Qed.

Lemma dashless_attributes_are_exposed_unchanged_witness :
  let self := Sample.node "card" "k" [("id", "top"); (":count", "3")] in
  exists locals context',
    render_locals Sample.django self (Sample.context_of []) = (Ok locals, context')
    /\ callable_attrs (attrs_dict locals) = [("id", VStr "top"); ("count", VInt 3)].
Proof.
  intro self. eexists _, _. split; [reflexivity |].
  apply (dashless_attributes_are_exposed_unchanged Sample.django self
           (Sample.context_of []) _ _ eq_refl).
  intros k [<- | [<- | []]]; reflexivity.
Defined.

(** X23.  Every attribute is exposed under its name with dashes turned
    to underscores, no exposed name occurs twice, and when two attributes
    get the same name that way, the one that comes last gives the
    value. *)
Theorem callable_attrs_expose_every_attribute :
  forall (attrs : Dict) (k : string) (v : PyVal),
    NoDup (dict_keys (callable_attrs attrs))
    /\ (In k (dict_keys attrs) ->
        In (PyStr.replace "-" "_" k) (dict_keys (callable_attrs attrs)))
    /\ dict_get (callable_attrs (attrs ++ [(k, v)])%list) (PyStr.replace "-" "_" k)
       = Some v.
Proof.
  intros attrs k v. split; [apply callable_attrs_keys_unique | split].
  - intros Hin. unfold callable_attrs.
    apply (fold_dict_set_keys
             (fun kv : string * PyVal => PyStr.replace "-" "_" (fst kv))
             (fun kv => snd kv)).
    right. unfold dict_keys in Hin.
    rewrite <- (map_map fst (PyStr.replace "-" "_")). now apply in_map.
  - unfold callable_attrs. rewrite fold_left_app. cbn.
    now rewrite dict_get_set, String.eqb_refl.
Qed.

Lemma callable_attrs_expose_every_attribute_witness :
  In "x_init" (dict_keys (callable_attrs [("x-init", VStr "a"); ("id", VStr "b")]))
  /\ dict_get (callable_attrs ([("x_init", VStr "a")] ++ [("x-init", VStr "b")])%list)
              "x_init"
     = Some (VStr "b").
Proof.
  destruct (callable_attrs_expose_every_attribute
              [("x-init", VStr "a"); ("id", VStr "b")] "x-init" VNone)
    as (_ & exposed & _).
  destruct (callable_attrs_expose_every_attribute
              [("x_init", VStr "a")] "x-init" (VStr "b")) as (_ & _ & last).
  split; [apply exposed; now left | exact last].
Defined.

(** ** Attributes moved over from the slots *)

(** X24.  An attribute listed under [ctn_template_expression_attrs]
    whose expression is not among the named slots is not skipped: the
    render raises. *)
Theorem expression_attr_without_expression_raises :
  forall (h : Host) (slots : Dict) (local_ctx : Context) (attrs : Dict)
         (names : list PyVal) (name : string),
    dict_get slots "ctn_template_expression_attrs" = Some (VList names) ->
    In (VStr name) names ->
    dict_get slots name = None ->
    exists e, expression_attrs h slots local_ctx attrs = Raise e.
Proof.
  intros h slots local_ctx attrs names name Hmarker Hin Hmissing.
  unfold expression_attrs. rewrite Hmarker. cbn [py_iter bind]. clear Hmarker.
  revert attrs. induction names as [| first names IH]; intros attrs;
    [destruct Hin |].
  cbn [expression_attrs_from].
  destruct Hin as [-> | Hin].
  - cbn [dict_index]. rewrite Hmissing. cbn. now exists KeyError.
  - destruct (dict_index slots first) as [raw | e]; cbn [bind];
      [| now exists e].
    destruct (match raw with
              | VStr value => _process_dynamic_attribute h value local_ctx
              | _ => Raise TypeError
              end) as [evaluated | e]; cbn [bind]; [| now exists e].
    destruct first; try (now exists AttributeError).
    now apply IH.
Qed.

Lemma expression_attr_without_expression_raises_witness :
  exists e,
    expression_attrs Sample.django
      [("ctn_template_expression_attrs", VList [VStr ":a"; VStr ":b"]);
       (":a", VStr "1")]
      (Sample.context_of []) [] = Raise e.
Proof.
  apply (expression_attr_without_expression_raises Sample.django _ _ _
           [VStr ":a"; VStr ":b"] ":b");
    [reflexivity | right; left; reflexivity | reflexivity].
Defined.

(** X25.  When the attributes moved over from the slots are all
    resolved, each of them is among the attributes under its name without
    leading colons, and the attributes of the tag are all still there. *)
Theorem expression_attrs_join_the_attributes :
  forall (h : Host) (slots : Dict) (local_ctx : Context) (attrs attrs' : Dict)
         (names : list PyVal),
    dict_get slots "ctn_template_expression_attrs" = Some (VList names) ->
    expression_attrs h slots local_ctx attrs = Ok attrs' ->
    (forall k, In k (dict_keys attrs) -> In k (dict_keys attrs'))
    /\ (forall name, In (VStr name) names ->
                     In (PyStr.lstrip ":" name) (dict_keys attrs')).
Proof.
  intros h slots local_ctx attrs attrs' names Hmarker.
  unfold expression_attrs. rewrite Hmarker. cbn [py_iter bind]. clear Hmarker.
  revert attrs. induction names as [| first names IH]; intros attrs; cbn.
  - intros [= <-]. split; [auto | intros name []].
  - destruct (dict_index slots first) as [raw | e]; cbn; [| discriminate].
    destruct (match raw with
              | VStr value => _process_dynamic_attribute h value local_ctx
              | _ => Raise TypeError
              end) as [evaluated | e]; cbn; [| discriminate].
    destruct first as [| | | first | | |]; try discriminate.
    intros H. destruct (IH _ H) as [Hkept Hmoved]. split.
    + intros k Hin. apply Hkept. apply dict_keys_set. now right.
    + intros name [[= ->] | Hin]; [| now apply Hmoved].
      apply Hkept. apply dict_keys_set. now left.
Qed.

Lemma expression_attrs_join_the_attributes_witness :
  let slots := [("ctn_template_expression_attrs", VList [VStr ":open"]);
                (":open", VStr "count")] in
  let local_ctx := Sample.context_of [("count", VInt 2)] in
  expression_attrs Sample.django slots local_ctx [("id", VStr "top")]
    = Ok [("id", VStr "top"); ("open", VInt 2)]
  /\ In "id" (dict_keys [("id", VStr "top"); ("open", VInt 2)])
  /\ In (PyStr.lstrip ":" ":open") (dict_keys [("id", VStr "top"); ("open", VInt 2)]).
Proof.
  intros slots local_ctx. split; [reflexivity |].
  destruct (expression_attrs_join_the_attributes Sample.django slots local_ctx
              [("id", VStr "top")] [("id", VStr "top"); ("open", VInt 2)]
              [VStr ":open"] eq_refl eq_refl) as [kept moved].
  split; [apply kept; now left | apply moved; now left].
Defined.
